(** * patch_script.py: the line-patching pass of processGPX-js

    A shallow embedding of [src/patch_script.py].  The script reads a text
    file, splits it on newlines, runs a fixed sequence of [list.insert] and
    [re.sub] statements over the list of lines, joins the lines again and
    writes the result to a second file.

    Python values are modelled as follows.
    - [str] is [string], a list of 8-bit characters; the newline is the
      character with code 10.  Nothing below depends on the size of the
      alphabet.
    - a list of lines is [list string]; subscripts and insertion indices are
      integers ([Z]) with Python's rules for negative and oversized values.
      The list is local to [apply_changes], so its in-place updates are
      modelled by passing the new list on.
    - exceptions are the [Raise] case of [result].
    - the file system seen by the script is a finite map from paths to the
      text [read()] returns for them; two paths never name the same file. *)

From Stdlib Require Import ZArith Lia Ascii String.
From stdpp Require Import base list strings gmap.
From Equations.Prop Require Import Equations Logic.

Local Open Scope string_scope.
Local Open Scope Z_scope.

(** ** Exceptions *)

Inductive exn : Type :=
| IndexError
| FileNotFoundError.

Inductive result (A : Type) : Type :=
| Ok (a : A)
| Raise (e : exn).
Arguments Ok {A} a.
Arguments Raise {A} e.

#[global] Instance result_ret : MRet result := fun A a => Ok a.

#[global] Instance result_bind : MBind result := fun A B k m =>
  match m with
  | Ok a => k a
  | Raise e => Raise e
  end.

#[global] Instance result_fmap : FMap result := fun A B f m =>
  match m with
  | Ok a => Ok (f a)
  | Raise e => Raise e
  end.

(** ** Strings: [str.split('\n')] and ['\n'.join] *)

Definition nl : ascii := ascii_of_N 10.
Definition dq : string := String (ascii_of_N 34) "".

Definition is_nl (c : ascii) : bool := bool_decide (c = nl).

(** [s.split('\n')]: the pieces of [s] between newlines; never empty. *)
Fixpoint split (s : string) : list string :=
  match s with
  | "" => [""]
  | String c s' =>
      if is_nl c then "" :: split s'
      else match split s' with
           | [] => [String c ""]
           | l :: ls => String c l :: ls
           end
  end.

(** ['\n'.join(lines)]. *)
Fixpoint join (lines : list string) : string :=
  match lines with
  | [] => ""
  | [l] => l
  | l :: ls => l +:+ String nl (join ls)
  end.

Fixpoint has_nl (s : string) : bool :=
  match s with
  | "" => false
  | String c s' => is_nl c || has_nl s'
  end.

(** ** Regular expressions: the fragment used by the script

    The three patterns consist of letters, digits, ['-'] and ['.'].  In
    Python's [re] module these characters match themselves, except ['.'],
    which matches any character other than a newline.  The other
    metacharacters of [re] do not occur in the script and are not modelled,
    nor are escapes in the replacement text, which the script does not use
    either. *)

Inductive atom : Type :=
| Lit (c : ascii)
| AnyChar.

Definition regex := list atom.

Definition dot : ascii := ascii_of_N 46.

Fixpoint compile (pattern : string) : regex :=
  match pattern with
  | "" => []
  | String c p => (if bool_decide (c = dot) then AnyChar else Lit c) :: compile p
  end.

Definition atom_matches (a : atom) (c : ascii) : bool :=
  match a with
  | Lit d => bool_decide (c = d)
  | AnyChar => negb (is_nl c)
  end.

(** [match_at r s]: match [r] at the start of [s]; the rest of [s] after
    the match. *)
Fixpoint match_at (r : regex) (s : string) : option string :=
  match r with
  | [] => Some s
  | a :: r' =>
      match s with
      | "" => None
      | String c s' => if atom_matches a c then match_at r' s' else None
      end
  end.

Lemma match_at_length r s rest :
  match_at r s = Some rest ->
  (String.length rest + length r = String.length s)%nat.
Proof.
  revert s; induction r as [|a r IH]; intros s; simpl.
  - intros [= ->]. lia.
  - destruct s as [|c s]; [done|]. destruct (atom_matches a c); [|done].
    intros H. apply IH in H. simpl. lia.
Qed.

(** The scan of [re.sub] for a pattern that cannot match the empty string:
    at each position, a match is replaced by [repl] and the scan resumes
    after it; otherwise the character is copied. *)
Equations? sub_scan (a : atom) (r : regex) (repl : string) (s : string) : string
  by wf (String.length s) lt :=
  sub_scan a r repl "" := "";
  sub_scan a r repl (String c s') with inspect (match_at (a :: r) (String c s')) := {
    | exist _ (Some rest) Hm => repl +:+ sub_scan a r repl rest
    | exist _ None _ => String c (sub_scan a r repl s') }.
Proof.
  pose proof (match_at_length (a :: r) (String c s') rest Hm) as Hlen.
  simpl in Hlen. lia.
Qed.

(** For the empty pattern [re.sub] puts [repl] at every position. *)
Fixpoint sub_everywhere (repl : string) (s : string) : string :=
  match s with
  | "" => repl
  | String c s' => repl +:+ String c (sub_everywhere repl s')
  end.

(** [re.sub(pattern, repl, s)] on the fragment the script uses: a pattern
    of characters that [re] reads literally and of ['.'], and a replacement
    without backslash.  There [re.sub] never raises [re.error] and copies
    the replacement as it is.  Outside the fragment ([plain_pattern],
    [plain_replacement] below) this function says nothing about Python. *)
Definition re_sub (pattern : string) (repl : string) (s : string) : string :=
  match compile pattern with
  | [] => sub_everywhere repl s
  | a :: r => sub_scan a r repl s
  end.

(** ** Lists of lines: [len], subscripts and [list.insert] *)

Definition len {A} (l : list A) : Z := Z.of_nat (length l).

(** A subscript [l[i]]: a negative [i] counts from the end; the position
    addressed, or [IndexError]. *)
Definition subscript {A} (l : list A) (i : Z) : result nat :=
  let j := if i <? 0 then i + len l else i in
  if (0 <=? j) && (j <? len l) then Ok (Z.to_nat j) else Raise IndexError.

(** [l[i]] read. *)
Definition getitem {A} (l : list A) (i : Z) : result A :=
  j ← subscript l i;
  match l !! j with
  | Some x => Ok x
  | None => Raise IndexError
  end.

(** [l[i] = x]. *)
Definition setitem {A} (l : list A) (i : Z) (x : A) : result (list A) :=
  j ← subscript l i;
  Ok (<[j := x]> l).

(** The position at which [l.insert(i, x)] puts [x] in a list of length
    [n]: negative indices count from the end, and what is still out of
    range is moved to the nearest end. *)
Definition insert_pos (n i : Z) : Z :=
  let w := if i <? 0 then (if i + n <? 0 then 0 else i + n) else i in
  if n <? w then n else w.

(** [l.insert(i, x)]; it never raises. *)
Definition list_insert {A} (l : list A) (i : Z) (x : A) : list A :=
  let w := Z.to_nat (insert_pos (len l) i) in
  take w l ++ x :: drop w l.

(** ** The script *)

(** [apply_changes(content)], statement by statement. *)
Definition apply_changes (content : string) : result string :=
  let lines := split content in
  let lines := list_insert lines 4824 "# Stage 0: Initial Points from GPX" in
  line ← getitem lines 4848;
  lines ← setitem lines 4848 (re_sub "perl-00-original.txt" "perl-00-initial-points.txt" line);
  let lines := list_insert lines 4850 "# Stage 1: Remove Duplicate Points" in
  let lines := list_insert lines 4854 "# Stage 2: Repeat Track" in
  let lines := list_insert lines 4890 "# Stage 3: Crop Points" in
  let lines := list_insert lines 4950 "# Stage 4: Fix Zig-Zags" in
  let lines := list_insert lines 4955 "# Stage 5: Adjust Altitudes" in
  let lines := list_insert lines 4975 "# Stage 6: Reverse Course" in
  let lines := list_insert lines 4982 "# Stage 7: Crop Corners" in
  let lines := list_insert lines 5008 "# Stage 8: Auto-Straighten" in
  let lines := list_insert lines 5050 "# Stage 9: Snap Repeated Points (Pass 1)" in
  let lines := list_insert lines 5063 "# Stage 10: Add Corner Splines" in
  line ← getitem lines 5068;
  lines ← setitem lines 5068 (re_sub "perl-10-after-splines.txt" "perl-10-splines-added.txt" line);
  let lines := list_insert lines 5069 "# Stage 11: Add Corner Arc Fits" in
  line ← getitem lines 5074;
  lines ← setitem lines 5074 (re_sub "perl-11-after-arcfit.txt" "perl-11-arcfit-added.txt" line);
  let lines := list_insert lines 5078 "# Stage 12: Auto-Spacing at Corners" in
  let lines := list_insert lines 5090 "# Stage 13: Point Interpolation" in
  let lines := list_insert lines 5097 ("    dumpPoints($points, " +:+ dq +:+ "perl-13-interpolated.txt" +:+ dq +:+ ");") in
  let lines := list_insert lines 5099 "# Stage 14: Process Straight Sections" in
  let lines := list_insert lines 5104 ("    dumpPoints($points, " +:+ dq +:+ "perl-14-straights-processed.txt" +:+ dq +:+ ");") in
  let lines := list_insert lines 5105 "# Stage 15: Process Circular Fits" in
  let lines := list_insert lines 5110 ("    dumpPoints($points, " +:+ dq +:+ "perl-15-circles-processed.txt" +:+ dq +:+ ");") in
  let lines := list_insert lines 5111 "# Stage 16: Snap Repeated Points (Pass 2)" in
  let lines := list_insert lines 5123 ("    dumpPoints($points, " +:+ dq +:+ "perl-16-snapped-pass2.txt" +:+ dq +:+ ");") in
  let lines := list_insert lines 5220 "# Stage 17: Add Corner Splines (Post-smoothing)" in
  let lines := list_insert lines 5224 ("    dumpPoints($points, " +:+ dq +:+ "perl-17-splines-added-post-smoothing.txt" +:+ dq +:+ ");") in
  let lines := list_insert lines 5225 "# Stage 18: Add Corner Arc Fits (Post-smoothing)" in
  let lines := list_insert lines 5229 ("    dumpPoints($points, " +:+ dq +:+ "perl-18-arcfit-added-post-smoothing.txt" +:+ dq +:+ ");") in
  let lines := list_insert lines 5230 "# Stage 19: Flatten Sections" in
  let lines := list_insert lines 5253 "# Stage 20: Fix Crossings" in
  let lines := list_insert lines 5406 "# Stage 21: Auto-Segments" in
  let lines := list_insert lines 5458 "# Stage 22: Final Crop" in
  let lines := list_insert lines 5464 ("    dumpPoints($points, " +:+ dq +:+ "perl-22-final-crop.txt" +:+ dq +:+ ");") in
  let lines := list_insert lines 5465 "# Stage 23: Prune Points" in
  let lines := list_insert lines 5530 "# Stage 24: Apply Lane Shift" in
  let lines := list_insert lines 5566 ("    dumpPoints($points, " +:+ dq +:+ "perl-24-lane-shift-applied.txt" +:+ dq +:+ ");") in
  let lines := list_insert lines 5567 "# Stage 25: Add Return Points (Out-and-back)" in
  let lines := list_insert lines 5572 ("    dumpPoints($points, " +:+ dq +:+ "perl-25-return-points-added.txt" +:+ dq +:+ ");") in
  let lines := list_insert lines 5573 "# Stage 26: Crop for extendBack" in
  let lines := list_insert lines 5575 ("  dumpPoints($points, " +:+ dq +:+ "perl-26-cropped-for-extend-back.txt" +:+ dq +:+ ")") in
  let lines := list_insert lines 5577 "# Stage 27: Add U-Turn Loops" in
  let lines := list_insert lines 5648 "# Stage 28: Apply Minimum Radius" in
  let lines := list_insert lines 5712 "# Stage 29: Shift Start/Finish" in
  let lines := list_insert lines 5767 "# Stage 30: Copy Start Point to End" in
  let lines := list_insert lines 5776 ("    dumpPoints($points, " +:+ dq +:+ "perl-30-start-point-copied.txt" +:+ dq +:+ ");") in
  Ok (join lines).

(** ** The file system and the main program *)

Definition input_path : string := "processGPX".
Definition output_path : string := "processGPX_new".

(** The body of the script after the definition of [apply_changes]: read
    the input file, patch, write the output file.  The result is the file
    system the run leaves behind and how the run ended.  Of the ways
    [open], [read] and [write] can fail only the missing input file is
    modelled; a run in which the input is unreadable or undecodable or the
    output cannot be written is outside this model. *)
Definition main (fs : gmap string string) : gmap string string * result () :=
  match fs !! input_path with
  | None => (fs, Raise FileNotFoundError)
  | Some content =>
      match apply_changes content with
      | Raise e => (fs, Raise e)
      | Ok new_content => (<[output_path := new_content]> fs, Ok ())
      end
  end.

(** ** The edits as data

    The statements of [apply_changes] are of two shapes, an insertion and a
    substitution within one line.  [changes] lists them in program order and
    [apply_ops] runs such a list. *)

Inductive op : Type :=
| Insert (index : Z) (content : string)
| Replace (index : Z) (pattern replacement : string).

Definition apply_op (o : op) (lines : list string) : result (list string) :=
  match o with
  | Insert i c => Ok (list_insert lines i c)
  | Replace i p r =>
      line ← getitem lines i;
      setitem lines i (re_sub p r line)
  end.

Fixpoint apply_ops (ops : list op) (lines : list string) : result (list string) :=
  match ops with
  | [] => Ok lines
  | o :: ops' => lines' ← apply_op o lines; apply_ops ops' lines'
  end.

(** Split, run the operations, join. *)
Definition apply (ops : list op) (content : string) : result string :=
  join <$> apply_ops ops (split content).

Definition changes : list op :=
  [ Insert 4824 "# Stage 0: Initial Points from GPX";
    Replace 4848 "perl-00-original.txt" "perl-00-initial-points.txt";
    Insert 4850 "# Stage 1: Remove Duplicate Points";
    Insert 4854 "# Stage 2: Repeat Track";
    Insert 4890 "# Stage 3: Crop Points";
    Insert 4950 "# Stage 4: Fix Zig-Zags";
    Insert 4955 "# Stage 5: Adjust Altitudes";
    Insert 4975 "# Stage 6: Reverse Course";
    Insert 4982 "# Stage 7: Crop Corners";
    Insert 5008 "# Stage 8: Auto-Straighten";
    Insert 5050 "# Stage 9: Snap Repeated Points (Pass 1)";
    Insert 5063 "# Stage 10: Add Corner Splines";
    Replace 5068 "perl-10-after-splines.txt" "perl-10-splines-added.txt";
    Insert 5069 "# Stage 11: Add Corner Arc Fits";
    Replace 5074 "perl-11-after-arcfit.txt" "perl-11-arcfit-added.txt";
    Insert 5078 "# Stage 12: Auto-Spacing at Corners";
    Insert 5090 "# Stage 13: Point Interpolation";
    Insert 5097 ("    dumpPoints($points, " +:+ dq +:+ "perl-13-interpolated.txt" +:+ dq +:+ ");");
    Insert 5099 "# Stage 14: Process Straight Sections";
    Insert 5104 ("    dumpPoints($points, " +:+ dq +:+ "perl-14-straights-processed.txt" +:+ dq +:+ ");");
    Insert 5105 "# Stage 15: Process Circular Fits";
    Insert 5110 ("    dumpPoints($points, " +:+ dq +:+ "perl-15-circles-processed.txt" +:+ dq +:+ ");");
    Insert 5111 "# Stage 16: Snap Repeated Points (Pass 2)";
    Insert 5123 ("    dumpPoints($points, " +:+ dq +:+ "perl-16-snapped-pass2.txt" +:+ dq +:+ ");");
    Insert 5220 "# Stage 17: Add Corner Splines (Post-smoothing)";
    Insert 5224 ("    dumpPoints($points, " +:+ dq +:+ "perl-17-splines-added-post-smoothing.txt" +:+ dq +:+ ");");
    Insert 5225 "# Stage 18: Add Corner Arc Fits (Post-smoothing)";
    Insert 5229 ("    dumpPoints($points, " +:+ dq +:+ "perl-18-arcfit-added-post-smoothing.txt" +:+ dq +:+ ");");
    Insert 5230 "# Stage 19: Flatten Sections";
    Insert 5253 "# Stage 20: Fix Crossings";
    Insert 5406 "# Stage 21: Auto-Segments";
    Insert 5458 "# Stage 22: Final Crop";
    Insert 5464 ("    dumpPoints($points, " +:+ dq +:+ "perl-22-final-crop.txt" +:+ dq +:+ ");");
    Insert 5465 "# Stage 23: Prune Points";
    Insert 5530 "# Stage 24: Apply Lane Shift";
    Insert 5566 ("    dumpPoints($points, " +:+ dq +:+ "perl-24-lane-shift-applied.txt" +:+ dq +:+ ");");
    Insert 5567 "# Stage 25: Add Return Points (Out-and-back)";
    Insert 5572 ("    dumpPoints($points, " +:+ dq +:+ "perl-25-return-points-added.txt" +:+ dq +:+ ");");
    Insert 5573 "# Stage 26: Crop for extendBack";
    Insert 5575 ("  dumpPoints($points, " +:+ dq +:+ "perl-26-cropped-for-extend-back.txt" +:+ dq +:+ ")");
    Insert 5577 "# Stage 27: Add U-Turn Loops";
    Insert 5648 "# Stage 28: Apply Minimum Radius";
    Insert 5712 "# Stage 29: Shift Start/Finish";
    Insert 5767 "# Stage 30: Copy Start Point to End";
    Insert 5776 ("    dumpPoints($points, " +:+ dq +:+ "perl-30-start-point-copied.txt" +:+ dq +:+ ");") ].

(** ** Specification vocabulary *)

(** Does [r] match somewhere in [s]? *)
Fixpoint occurs (r : regex) (s : string) : bool :=
  match match_at r s with
  | Some _ => true
  | None =>
      match s with
      | "" => false
      | String _ s' => occurs r s'
      end
  end.

(** Is [t] a substring of [s], character for character? *)
Fixpoint contains (t s : string) : bool :=
  String.prefix t s ||
  match s with
  | "" => false
  | String _ s' => contains t s'
  end.

(** The number of positions of [s] at which [r] matches. *)
Fixpoint occ_count (r : regex) (s : string) : nat :=
  ((match match_at r s with Some _ => 1 | None => 0 end) +
   match s with
   | "" => 0
   | String _ s' => occ_count r s'
   end)%nat.

(** Can one character be matched by both atoms? *)
Definition compatible (a b : atom) : bool :=
  match a, b with
  | Lit c, Lit d => bool_decide (c = d)
  | Lit c, AnyChar | AnyChar, Lit c => negb (is_nl c)
  | AnyChar, AnyChar => true
  end.

(** Can [r1] and [r2] match at the same position, as far as both reach? *)
Fixpoint can_overlap (r1 r2 : regex) : bool :=
  match r1, r2 with
  | a :: r1', b :: r2' => compatible a b && can_overlap r1' r2'
  | _, _ => true
  end.

(** No match of [r] can begin inside the part of a match that [tail], a
    suffix of the pattern, still has to cover. *)
Fixpoint no_overlap (tail r : regex) : bool :=
  match tail with
  | [] => true
  | _ :: tail' => negb (can_overlap tail r) && no_overlap tail' r
  end.

(** Two matches of [r] never overlap. *)
Definition overlap_free (r : regex) : bool :=
  match r with
  | [] => false
  | _ :: r' => no_overlap r' r
  end.

(** A line cut into stretches without a match, each followed by a match,
    and a last stretch: [weave [(g1, m1); ...; (gk, mk)] g] is
    [g1 m1 ... gk mk g]. *)
Fixpoint weave (pieces : list (string * string)) (last : string) : string :=
  match pieces with
  | [] => last
  | (g, m) :: pieces' => g +:+ m +:+ weave pieces' last
  end.

(** The same stretches with [repl] in the place of every match. *)
Definition refill (repl : string) (pieces : list (string * string)) :
    list (string * string) :=
  map (fun gm => (gm.1, repl)) pieces.

Definition line_count (content : string) : Z := len (split content).

Definition no_nl (s : string) : Prop := has_nl s = false.

(** ** Quantities read off an operation list *)

Definition is_insert (o : op) : bool :=
  match o with
  | Insert _ _ => true
  | Replace _ _ _ => false
  end.

(** The number of [Insert] operations. *)
Fixpoint count_inserts (ops : list op) : Z :=
  match ops with
  | [] => 0
  | o :: ops' => (if is_insert o then 1 else 0) + count_inserts ops'
  end.

Definition op_index (o : op) : Z :=
  match o with
  | Insert i _ => i
  | Replace i _ _ => i
  end.

(** No index in the list is negative. *)
Definition nonneg_indices (ops : list op) : bool :=
  forallb (fun o => 0 <=? op_index o) ops.

(** The text an operation can add to a line. *)
Definition op_text (o : op) : string :=
  match o with
  | Insert _ c => c
  | Replace _ _ r => r
  end.

(** No operation brings in a newline. *)
Definition single_lines (ops : list op) : bool :=
  forallb (fun o => negb (has_nl (op_text o))) ops.

(** The least document length on which every subscript of the list is in
    range when its turn comes: an insertion lengthens the document by one,
    a substitution at [i] needs more than [i] lines. *)
Fixpoint min_len (ops : list op) : Z :=
  match ops with
  | [] => 0
  | Insert _ _ :: ops' => min_len ops' - 1
  | Replace i _ _ :: ops' => Z.max (i + 1) (min_len ops')
  end.

(** Indices in terms of the original document.  After [k] insertions that
    all landed at or before some line, that line sits [k] places further
    down, so an index [i] used at that moment refers to original position
    [i - k].  [ordered ops k lo] checks that these original positions never
    decrease along the list: each operation works at or after the place of
    the last insertion, [lo]. *)
Fixpoint ordered (ops : list op) (k lo : Z) : bool :=
  match ops with
  | [] => true
  | Insert i _ :: ops' => (lo <=? i - k) && ordered ops' (k + 1) (i - k)
  | Replace i _ _ :: ops' => (lo <=? i - k) && ordered ops' k lo
  end.

(** The number of insertions of [ops] made at or before original position
    [p], [k] insertions having been made already. *)
Fixpoint shift (ops : list op) (k p : Z) : Z :=
  match ops with
  | [] => 0
  | Insert i _ :: ops' => (if i - k <=? p then 1 else 0) + shift ops' (k + 1) p
  | Replace _ _ _ :: ops' => shift ops' k p
  end.

(** The original positions of the lines a [Replace] addresses. *)
Fixpoint targets (ops : list op) (k : Z) : list Z :=
  match ops with
  | [] => []
  | Insert _ _ :: ops' => targets ops' (k + 1)
  | Replace i _ _ :: ops' => (i - k) :: targets ops' k
  end.

(** The number of insertions of [ops], run on a document of [n] lines, that
    land at or before the line which is at position [q] when the run
    starts; each such insertion moves the line one place down. *)
Fixpoint inserted_before (ops : list op) (n q : Z) : Z :=
  match ops with
  | [] => 0
  | Insert i _ :: ops' =>
      if insert_pos n i <=? q then 1 + inserted_before ops' (n + 1) (q + 1)
      else inserted_before ops' (n + 1) q
  | Replace _ _ _ :: ops' => inserted_before ops' n q
  end.

(** An index outside the document, as the specification words it: for an
    insertion, greater than the length; for a substitution, not in
    [0, length). *)
Definition out_of_range (o : op) (lines : list string) : Prop :=
  match o with
  | Insert i _ => len lines < i
  | Replace i _ _ => ~ (0 <= i < len lines)
  end.

(** A text of [n] newlines: [n + 1] empty lines. *)
Fixpoint newlines (n : nat) : string :=
  match n with
  | O => ""
  | S n' => String nl (newlines n')
  end.

(** The smallest input the script accepts: 5063 empty lines. *)
Definition doc0 : string := newlines (Z.to_nat 5062).

(** The value a call returned, [""] if it raised. *)
Definition returned (r : result string) : string :=
  match r with
  | Ok s => s
  | Raise _ => ""
  end.

Definition out0 : string := returned (apply_changes doc0).

(** 5063 lines, all empty but line 4847. *)
Definition doc1 : string :=
  newlines (Z.to_nat 4847) +:+ "perl-00-originalXtxt" +:+ newlines (Z.to_nat 215).

(** The fragment of [re] that [compile] and [re_sub] model.  A pattern is
    plain when it has none of the characters that [re] reads specially other
    than ['.']; a replacement is plain when it has no backslash. *)
Fixpoint mem_char (c : ascii) (s : string) : bool :=
  match s with
  | "" => false
  | String d s' => bool_decide (c = d) || mem_char c s'
  end.

Definition re_special : string := "\^$*+?{}[]()|".

Fixpoint plain_pattern (p : string) : bool :=
  match p with
  | "" => true
  | String c p' => negb (mem_char c re_special) && plain_pattern p'
  end.

Definition plain_replacement (r : string) : bool :=
  negb (mem_char (ascii_of_N 92) r).

(** The number of newline characters of a text. *)
Fixpoint count_nl (s : string) : Z :=
  match s with
  | "" => 0
  | String c s' => (if is_nl c then 1 else 0) + count_nl s'
  end.

(** What the substitutions of [ops] make of the line at original position
    [p] whose text is [s], [k] insertions having been made already: each
    substitution that addresses the line rewrites it. *)
Fixpoint rewritten (ops : list op) (k p : Z) (s : string) : string :=
  match ops with
  | [] => s
  | Insert _ _ :: ops' => rewritten ops' (k + 1) p s
  | Replace i pat repl :: ops' =>
      rewritten ops' k p (if i - k =? p then re_sub pat repl s else s)
  end.

(** What the script leaves of the input line at position [p]: three lines
    go through a substitution, the others are kept. *)
Definition substituted (p : Z) (s : string) : string :=
  if p =? 4847 then re_sub "perl-00-original.txt" "perl-00-initial-points.txt" s
  else if p =? 5057 then re_sub "perl-10-after-splines.txt" "perl-10-splines-added.txt" s
  else if p =? 5062 then re_sub "perl-11-after-arcfit.txt" "perl-11-arcfit-added.txt" s
  else s.

(** * Properties *)

(** ** Splitting and joining *)

Lemma split_not_nil s : split s <> [].
Proof.
  destruct s as [|c s]; simpl; [done|].
  destruct (is_nl c); [done|]. by destruct (split s).
Qed.

Lemma join_cons l ls : ls <> [] -> join (l :: ls) = l +:+ String nl (join ls).
Proof. by destruct ls. Qed.

Lemma is_nl_true c : is_nl c = true -> c = nl.
Proof. unfold is_nl. intros H. by apply bool_decide_eq_true in H. Qed.

Lemma join_split s : join (split s) = s.
Proof.
  induction s as [|c s IH]; simpl; [done|].
  destruct (is_nl c) eqn:Hc.
  - apply is_nl_true in Hc as ->.
    rewrite join_cons by apply split_not_nil. by rewrite IH.
  - pose proof (split_not_nil s) as Hne.
    destruct (split s) as [|l ls]; [done|].
    destruct ls as [|l' ls].
    + simpl in *. by rewrite IH.
    + rewrite join_cons by done. rewrite join_cons in IH by done.
      rewrite <- IH. reflexivity.
Qed.

Lemma has_nl_app s t : has_nl (s +:+ t) = has_nl s || has_nl t.
Proof.
  induction s as [|c s IH]; simpl; [done|]. rewrite IH. by rewrite orb_assoc.
Qed.

Lemma split_no_nl s : Forall no_nl (split s).
Proof.
  induction s as [|c s IH]; simpl.
  - by repeat constructor.
  - destruct (is_nl c) eqn:Hc.
    + by constructor.
    + destruct (split s) as [|l ls]; [by repeat constructor; unfold no_nl; simpl; rewrite Hc|].
      inversion IH as [|? ? Hl Hls]; subst. constructor; [|done].
      unfold no_nl in *. simpl. by rewrite Hc.
Qed.

Lemma split_line s : no_nl s -> split s = [s].
Proof.
  unfold no_nl. induction s as [|c s IH]; simpl; [done|].
  intros H. apply orb_false_elim in H as [Hc Hs].
  rewrite Hc, (IH Hs). done.
Qed.

Lemma split_app_nl s t : no_nl s -> split (s +:+ String nl t) = s :: split t.
Proof.
  unfold no_nl. induction s as [|c s IH]; simpl.
  - intros _. reflexivity.
  - intros H. apply orb_false_elim in H as [Hc Hs].
    rewrite Hc. by rewrite (IH Hs).
Qed.

Lemma split_join lines :
  lines <> [] -> Forall no_nl lines -> split (join lines) = lines.
Proof.
  induction lines as [|l ls IH]; [done|]. intros _ Hall.
  inversion Hall as [|? ? Hl Hls]; subst.
  destruct ls as [|l' ls].
  - simpl. by apply split_line.
  - rewrite join_cons by done. rewrite split_app_nl by done.
    by rewrite IH.
Qed.

(** ** Substitution *)

Lemma match_at_no_nl r s rest : match_at r s = Some rest -> no_nl s -> no_nl rest.
Proof.
  unfold no_nl. revert s; induction r as [|a r IH]; intros s; simpl.
  - by intros [= ->].
  - destruct s as [|c s]; [done|]. destruct (atom_matches a c); [|done].
    simpl. intros Hm H. apply orb_false_elim in H as [_ Hs]. eauto.
Qed.

Lemma sub_scan_no_nl a r repl s :
  no_nl repl -> no_nl s -> no_nl (sub_scan a r repl s).
Proof.
  intros Hrepl. funelim (sub_scan a r repl s); intros Hs.
  - done.
  - unfold no_nl. rewrite has_nl_app, Hrepl. simpl.
    apply H; [done|]. by eapply match_at_no_nl.
  - unfold no_nl in *. simpl in *.
    apply orb_false_elim in Hs as [Hc Hs]. rewrite Hc. simpl. by apply H.
Qed.

Lemma sub_everywhere_no_nl repl s :
  no_nl repl -> no_nl s -> no_nl (sub_everywhere repl s).
Proof.
  unfold no_nl. intros Hrepl. induction s as [|c s IH]; simpl; [done|].
  intros H. apply orb_false_elim in H as [Hc Hs].
  rewrite has_nl_app, Hrepl. simpl. rewrite Hc. simpl. by apply IH.
Qed.

Lemma re_sub_no_nl p repl s : no_nl repl -> no_nl s -> no_nl (re_sub p repl s).
Proof.
  intros. unfold re_sub. destruct (compile p).
  - by apply sub_everywhere_no_nl.
  - by apply sub_scan_no_nl.
Qed.

Lemma occurs_cons r c s :
  occurs r (String c s) = false ->
  match_at r (String c s) = None /\ occurs r s = false.
Proof. simpl. by destruct (match_at r (String c s)). Qed.

Lemma sub_scan_no_match a r repl s :
  occurs (a :: r) s = false -> sub_scan a r repl s = s.
Proof.
  funelim (sub_scan a r repl s); intros Hocc.
  - done.
  - apply occurs_cons in Hocc as [Hnone _]. congruence.
  - apply occurs_cons in Hocc as [_ Hocc]. f_equal. by apply H.
Qed.

(** Where the pattern has no match, [re.sub] returns its argument. *)
Lemma re_sub_no_match p repl s :
  occurs (compile p) s = false -> re_sub p repl s = s.
Proof.
  unfold re_sub. destruct (compile p) as [|a r].
  - by destruct s.
  - apply sub_scan_no_match.
Qed.

(** A literal occurrence of the pattern text is a match of the pattern. *)
Lemma prefix_match_at t s :
  no_nl t -> String.prefix t s = true -> is_Some (match_at (compile t) s).
Proof.
  unfold no_nl. revert s; induction t as [|c t IH]; intros s; simpl.
  - eauto.
  - intros Hnl. apply orb_false_elim in Hnl as [Hc Ht].
    destruct s as [|d s]; [done|]. simpl.
    destruct (ascii_dec c d) as [<-|]; [|done]. intros Hp.
    assert (atom_matches (if bool_decide (c = dot) then AnyChar else Lit c) c = true)
      as ->; [|by apply IH].
    case_bool_decide; simpl; [by rewrite Hc|by apply bool_decide_eq_true_2].
Qed.

Lemma contains_occurs t s :
  no_nl t -> contains t s = true -> occurs (compile t) s = true.
Proof.
  intros Ht. induction s as [|c s IH].
  - simpl. rewrite orb_false_r. intros Hp.
    by destruct (prefix_match_at t "" Ht Hp) as [? ->].
  - cbn [contains occurs]. intros H. apply orb_true_iff in H as [Hp|Hc].
    + by destruct (prefix_match_at t _ Ht Hp) as [? ->].
    + destruct (match_at _ _); [done|]. by apply IH.
Qed.

(** ** Every match is replaced *)

Lemma match_at_split r s rest :
  match_at r s = Some rest ->
  exists m, s = m +:+ rest /\ match_at r m = Some "".
Proof.
  revert s; induction r as [|a r IH]; intros s; simpl.
  - intros [= ->]. by exists "".
  - destruct s as [|c s]; [done|]. destruct (atom_matches a c) eqn:Hc; [|done].
    intros (m & -> & Hm)%IH. exists (String c m). simpl. by rewrite Hc.
Qed.

Lemma match_at_extend r s rest t :
  match_at r s = Some rest -> match_at r (s +:+ t) = Some (rest +:+ t).
Proof.
  revert s; induction r as [|a r IH]; intros s; simpl.
  - by intros [= ->].
  - destruct s as [|c s]; [done|]. simpl. destruct (atom_matches a c); [|done].
    apply IH.
Qed.

Lemma match_at_None_prefix r s t :
  match_at r (s +:+ t) = None -> match_at r s = None.
Proof.
  intros H. destruct (match_at r s) as [rest|] eqn:Hm; [|done].
  apply (match_at_extend _ _ _ t) in Hm. congruence.
Qed.

Lemma compatible_matches a b c :
  atom_matches a c = true -> atom_matches b c = true -> compatible a b = true.
Proof.
  destruct a as [x|], b as [y|]; simpl; try done.
  - intros ->%bool_decide_eq_true ->%bool_decide_eq_true.
    by apply bool_decide_eq_true_2.
  - by intros ->%bool_decide_eq_true.
  - by intros ? ->%bool_decide_eq_true.
Qed.

Lemma can_overlap_matches r1 r2 s :
  is_Some (match_at r1 s) -> is_Some (match_at r2 s) -> can_overlap r1 r2 = true.
Proof.
  revert r2 s; induction r1 as [|a r1 IH]; intros [|b r2] s; simpl; try done.
  destruct s as [|c s]; [by intros [? ?]|].
  destruct (atom_matches a c) eqn:Ha; [|by intros [? ?]].
  destruct (atom_matches b c) eqn:Hb; [|by intros _ [? ?]].
  intros H1 H2. rewrite (compatible_matches a b c Ha Hb). simpl. by eapply IH.
Qed.

(** Inside a match no other match begins. *)
Lemma occ_count_inside tail r s rest :
  no_overlap tail r = true ->
  match_at tail s = Some rest ->
  occ_count r s = occ_count r rest.
Proof.
  revert s; induction tail as [|a tail IH]; intros s; cbn [no_overlap match_at].
  - by intros _ [= ->].
  - intros [Hno Htail]%andb_prop. apply negb_true_iff in Hno.
    destruct s as [|c s]; [done|].
    destruct (atom_matches a c) eqn:Ha; [|done]. intros Hm.
    cbn [occ_count]. rewrite <- (IH s Htail Hm).
    destruct (match_at r (String c s)) as [rest'|] eqn:Hr; [|done].
    assert (can_overlap (a :: tail) r = true); [|congruence].
    apply (can_overlap_matches _ _ (String c s)); [|by rewrite Hr].
    cbn [match_at]. rewrite Ha. by rewrite Hm.
Qed.

Lemma occ_count_match r s rest :
  overlap_free r = true ->
  match_at r s = Some rest ->
  occ_count r s = S (occ_count r rest).
Proof.
  destruct r as [|a r]; [done|]. cbn [overlap_free]. intros Hfree Hm.
  destruct s as [|c s]; [done|]. cbn [occ_count]. rewrite Hm.
  cbn [match_at] in Hm. destruct (atom_matches a c); [|done].
  by rewrite (occ_count_inside r (a :: r) s rest Hfree Hm).
Qed.

Lemma occurs_empty a r : occurs (a :: r) "" = false.
Proof. reflexivity. Qed.

(** What the scan of [re.sub] does to a line: it cuts the line into
    stretches that hold no match, separated by matches, and returns the
    stretches separated by [repl].  When matches of the pattern cannot
    overlap, the matches it separates are all the matches of the line. *)
Lemma sub_scan_weave a r repl s :
  exists pieces last,
    s = weave pieces last /\
    Forall (fun gm => occurs (a :: r) gm.1 = false /\
                      match_at (a :: r) gm.2 = Some "") pieces /\
    occurs (a :: r) last = false /\
    sub_scan a r repl s = weave (refill repl pieces) last /\
    (overlap_free (a :: r) = true -> length pieces = occ_count (a :: r) s).
Proof.
  funelim (sub_scan a r repl s).
  - exists [], "". split_and!; [done | constructor | done | done | done].
  - destruct H as (pieces & last & Hs & Hpieces & Hlast & Hsub & Hcount).
    destruct (match_at_split _ _ _ Hm) as (m & Hsplit & Hmatch).
    exists (("", m) :: pieces), last. split_and!.
    + cbn [weave]. by rewrite Hsplit, Hs at 1.
    + constructor; [|done]. cbn. split; [reflexivity | done].
    + done.
    + cbn [refill map weave fst]. by rewrite Hsub.
    + intros Hfree. rewrite (occ_count_match _ _ _ Hfree Hm).
      cbn [length]. by rewrite Hcount.
  - destruct H as (pieces & last & Hs & Hpieces & Hlast & Hsub & Hcount).
    assert (forall g t, s' = g +:+ t -> occurs (a :: r) g = false ->
                        occurs (a :: r) (String c g) = false) as Hgap.
    { intros g t -> Hg. cbn [occurs].
      rewrite (match_at_None_prefix (a :: r) (String c g) t e). done. }
    assert (occ_count (a :: r) (String c s') = occ_count (a :: r) s') as Hocc
      by (cbn [occ_count]; by rewrite e).
    destruct pieces as [|[g m] pieces].
    + exists [], (String c last). cbn [weave] in Hs. split_and!.
      * cbn [weave]. by rewrite Hs at 1.
      * constructor.
      * subst s'. cbn [occurs]. by rewrite e.
      * cbn [refill map weave] in *. by rewrite Hsub.
      * intros Hfree. rewrite Hocc. by apply Hcount.
    + exists ((String c g, m) :: pieces), last. cbn [weave] in Hs.
      inversion Hpieces as [|? ? [Hg Hm] Hrest]; subst.
      split_and!.
      * cbn [weave]. reflexivity.
      * constructor; [|done]. cbn in *. split; [|done].
        by apply (Hgap g (m +:+ weave pieces last)).
      * done.
      * cbn [refill map weave fst] in *. by rewrite Hsub.
      * intros Hfree. rewrite Hocc. by apply Hcount.
Qed.

(** ** Subscripts and insertion *)

Ltac case_insert_pos n i :=
  unfold insert_pos; cbv zeta;
  destruct (Z.ltb_spec i 0); [destruct (Z.ltb_spec (i + n) 0)|];
  match goal with
  | |- context [?a <? ?b] => destruct (Z.ltb_spec a b)
  end.

Section list_ops.
Context {A : Type}.
Implicit Types (l : list A) (i : Z) (x : A) (p j : nat).

Lemma len_nonneg l : 0 <= len l.
Proof. unfold len. lia. Qed.

Lemma subscript_Ok l i j :
  subscript l i = Ok j <->
  (0 <= i < len l /\ j = Z.to_nat i) \/
  (- len l <= i < 0 /\ j = Z.to_nat (i + len l)).
Proof.
  unfold subscript. pose proof (len_nonneg l).
  destruct (Z.ltb_spec i 0);
    repeat match goal with
           | |- context [?a <=? ?b] => destruct (Z.leb_spec a b)
           | |- context [?a <? ?b] => destruct (Z.ltb_spec a b)
           end; simpl; split; try (intros [= <-]; lia); try (intros ?; exfalso; lia);
    try done; intros [[? ->]|[? ->]]; (reflexivity || lia).
Qed.

Lemma subscript_Raise l i :
  subscript l i = Raise IndexError <-> len l <= i \/ i < - len l.
Proof.
  unfold subscript. pose proof (len_nonneg l).
  destruct (Z.ltb_spec i 0);
    repeat match goal with
           | |- context [?a <=? ?b] => destruct (Z.leb_spec a b)
           | |- context [?a <? ?b] => destruct (Z.ltb_spec a b)
           end; simpl; split; try done; try lia.
Qed.

Lemma subscript_lt l i j : subscript l i = Ok j -> (j < length l)%nat.
Proof. rewrite subscript_Ok. unfold len. lia. Qed.

Lemma subscript_exn l i e : subscript l i = Raise e -> e = IndexError.
Proof.
  unfold subscript. destruct (_ && _); [done|]. by intros [= <-].
Qed.

Lemma getitem_Ok l i x :
  getitem l i = Ok x <-> exists j, subscript l i = Ok j /\ l !! j = Some x.
Proof.
  unfold getitem. destruct (subscript l i) as [j|e] eqn:Hj; cbn.
  - destruct (l !! j) as [y|] eqn:Hy; split.
    + intros [= <-]; eauto.
    + intros (j' & [= <-] & Hx). congruence.
    + done.
    + intros (j' & [= <-] & Hx). congruence.
  - split; [done|]. by intros (? & ? & ?).
Qed.

Lemma getitem_Raise l i e :
  getitem l i = Raise e <-> subscript l i = Raise IndexError /\ e = IndexError.
Proof.
  unfold getitem. destruct (subscript l i) as [j|e'] eqn:Hj; cbn.
  - apply subscript_lt in Hj as Hlt. apply lookup_lt_is_Some_2 in Hlt as [y ->].
    split; [done|]. by intros [? ?].
  - apply subscript_exn in Hj as ->. split; [by intros [= <-]|by intros [_ ->]].
Qed.

Lemma setitem_Ok l i x l' :
  setitem l i x = Ok l' <-> exists j, subscript l i = Ok j /\ l' = <[j := x]> l.
Proof.
  unfold setitem. destruct (subscript l i) as [j|e]; cbn.
  - split; [intros [= <-]; eauto|]. by intros (? & [= <-] & ->).
  - split; [done|]. by intros (? & ? & ?).
Qed.

Lemma insert_pos_bounds n i : 0 <= n -> 0 <= insert_pos n i <= n.
Proof.
  intros Hn. case_insert_pos n i; lia.
Qed.

Lemma insert_pos_in_range n i : 0 <= i <= n -> insert_pos n i = i.
Proof.
  intros Hi. case_insert_pos n i; lia.
Qed.

Lemma insert_pos_beyond n i : 0 <= n -> n < i -> insert_pos n i = n.
Proof.
  intros Hn Hi. case_insert_pos n i; lia.
Qed.

Lemma insert_pos_nat l i : (Z.to_nat (insert_pos (len l) i) <= length l)%nat.
Proof. pose proof (insert_pos_bounds (len l) i (len_nonneg l)). unfold len in *. lia. Qed.

Lemma length_list_insert l i x : length (list_insert l i x) = S (length l).
Proof.
  unfold list_insert. pose proof (insert_pos_nat l i).
  rewrite length_app, length_take. simpl. rewrite length_drop. lia.
Qed.

Lemma len_list_insert l i x : len (list_insert l i x) = len l + 1.
Proof. unfold len. rewrite length_list_insert. lia. Qed.

Lemma lookup_list_insert_lt l i x p :
  (p < Z.to_nat (insert_pos (len l) i))%nat -> list_insert l i x !! p = l !! p.
Proof.
  intros Hp. unfold list_insert. pose proof (insert_pos_nat l i).
  rewrite lookup_app_l by (rewrite length_take; lia).
  by apply lookup_take_lt.
Qed.

Lemma lookup_list_insert_eq l i x :
  list_insert l i x !! Z.to_nat (insert_pos (len l) i) = Some x.
Proof.
  unfold list_insert. pose proof (insert_pos_nat l i).
  apply list_lookup_middle. rewrite length_take. lia.
Qed.

Lemma lookup_list_insert_ge l i x p :
  (Z.to_nat (insert_pos (len l) i) <= p)%nat -> list_insert l i x !! S p = l !! p.
Proof.
  intros Hp. unfold list_insert. pose proof (insert_pos_nat l i).
  set (w := Z.to_nat (insert_pos (len l) i)) in *.
  rewrite lookup_app_r by (rewrite length_take; lia).
  rewrite length_take. replace (S p - w `min` length l)%nat with (S (p - w)) by lia.
  simpl. rewrite lookup_drop. f_equal. lia.
Qed.

Lemma list_insert_beyond l i x : len l < i -> list_insert l i x = (l ++ [x])%list.
Proof.
  intros Hi. unfold list_insert.
  rewrite insert_pos_beyond by (apply len_nonneg || done).
  unfold len. rewrite Nat2Z.id, take_ge, drop_ge by lia. done.
Qed.
End list_ops.

(** ** Running operation lists *)

Lemma apply_ops_app ops1 ops2 lines :
  apply_ops (ops1 ++ ops2) lines = apply_ops ops1 lines ≫= apply_ops ops2.
Proof.
  revert lines; induction ops1 as [|o ops1 IH]; intros lines; [done|].
  cbn [app apply_ops]. destruct (apply_op o lines); [apply IH | done].
Qed.

Lemma apply_op_replace_Ok i p r lines lines' :
  apply_op (Replace i p r) lines = Ok lines' <->
  exists j line, subscript lines i = Ok j /\ lines !! j = Some line /\
                 lines' = <[j := re_sub p r line]> lines.
Proof.
  cbn [apply_op]. split.
  - destruct (getitem lines i) as [line|] eqn:Hg; [|done]. cbn.
    intros Hs. apply getitem_Ok in Hg as (j & Hj & Hline).
    apply setitem_Ok in Hs as (j' & Hj' & ->).
    exists j, line. split_and!; congruence.
  - intros (j & line & Hj & Hline & ->).
    assert (getitem lines i = Ok line) as -> by (apply getitem_Ok; eauto).
    cbn. apply setitem_Ok. eauto.
Qed.

Lemma apply_op_replace_Raise i p r lines :
  len lines <= i \/ i < - len lines ->
  apply_op (Replace i p r) lines = Raise IndexError.
Proof.
  intros Hi. cbn [apply_op].
  assert (getitem lines i = Raise IndexError) as ->; [|done].
  apply getitem_Raise. split; [|done]. by apply subscript_Raise.
Qed.

Lemma apply_op_exn o lines e : apply_op o lines = Raise e -> e = IndexError.
Proof.
  destruct o as [i c|i p r]; [done|]. cbn [apply_op].
  destruct (getitem lines i) as [line|e'] eqn:Hg; cbn.
  - unfold setitem. destruct (subscript lines i) eqn:Hs; [done|].
    cbn. intros [= <-]. by eapply subscript_exn.
  - intros [= <-]. by apply getitem_Raise in Hg as [_ ->].
Qed.

Lemma count_inserts_cons o ops :
  count_inserts (o :: ops) = (if is_insert o then 1 else 0) + count_inserts ops.
Proof. reflexivity. Qed.

Lemma apply_op_len o lines lines' :
  apply_op o lines = Ok lines' ->
  len lines' = len lines + (if is_insert o then 1 else 0).
Proof.
  destruct o as [i c|i p r].
  - intros [= <-]. apply len_list_insert.
  - intros (j & line & _ & _ & ->)%apply_op_replace_Ok.
    unfold len. rewrite length_insert. simpl. lia.
Qed.

(** A run that ends normally lengthens the document by the number of its
    insertions. *)
Lemma apply_ops_len ops lines lines' :
  apply_ops ops lines = Ok lines' -> len lines' = len lines + count_inserts ops.
Proof.
  revert lines; induction ops as [|o ops IH]; intros lines; cbn [apply_ops].
  - intros [= <-]. simpl. lia.
  - destruct (apply_op o lines) as [l1|] eqn:Ho; [|done]. cbn [mbind result_bind].
    intros H. apply IH in H. apply apply_op_len in Ho.
    rewrite count_inserts_cons. lia.
Qed.

(** With non-negative indices, a run ends normally exactly on the documents
    of at least [min_len] lines. *)
Lemma apply_ops_Ok_iff ops lines :
  nonneg_indices ops = true ->
  (exists lines', apply_ops ops lines = Ok lines') <-> min_len ops <= len lines.
Proof.
  revert lines; induction ops as [|o ops IH]; intros lines; cbn [apply_ops min_len].
  - intros _. pose proof (len_nonneg lines). split; [lia | eauto].
  - intros [Ho Hops]%andb_prop. apply Z.leb_le in Ho.
    destruct o as [i c|i p r]; cbn [apply_op op_index] in *.
    + cbn. rewrite IH by done. rewrite len_list_insert. lia.
    + destruct (Z.lt_ge_cases i (len lines)) as [Hlt|Hge].
      * destruct (lookup_lt_is_Some_2 lines (Z.to_nat i)) as [line Hline];
          [unfold len in *; lia|].
        assert (subscript lines i = Ok (Z.to_nat i)) as Hj
          by (apply subscript_Ok; left; lia).
        assert (getitem lines i = Ok line) as -> by (apply getitem_Ok; eauto).
        cbn. unfold setitem. rewrite Hj. cbn. rewrite IH by done.
        unfold len. rewrite length_insert. fold (len lines). lia.
      * fold (apply_op (Replace i p r) lines).
        rewrite apply_op_replace_Raise by lia. cbn.
        split; [by intros [? ?] | lia].
Qed.

(** Lines stay single lines. *)
Lemma apply_op_no_nl o lines lines' :
  no_nl (op_text o) -> Forall no_nl lines ->
  apply_op o lines = Ok lines' -> Forall no_nl lines'.
Proof.
  intros Ho Hall. destruct o as [i c|i p r]; cbn [op_text] in Ho.
  - intros [= <-]. unfold list_insert. apply Forall_app. split.
    + by apply Forall_take.
    + constructor; [done|]. by apply Forall_drop.
  - intros (j & line & _ & Hline & ->)%apply_op_replace_Ok.
    apply Forall_insert; [done|]. apply re_sub_no_nl; [done|].
    by eapply Forall_lookup_1.
Qed.

Lemma apply_ops_no_nl ops lines lines' :
  single_lines ops = true -> Forall no_nl lines ->
  apply_ops ops lines = Ok lines' -> Forall no_nl lines'.
Proof.
  revert lines; induction ops as [|o ops IH]; intros lines; cbn [apply_ops].
  - by intros _ ? [= <-].
  - intros [Ho Hops]%andb_prop Hall. apply negb_true_iff in Ho.
    destruct (apply_op o lines) as [l1|] eqn:H1; [|done]. cbn [mbind result_bind].
    apply IH; [done|]. by eapply apply_op_no_nl.
Qed.

(** ** Where the original lines end up *)

Lemma shift_before ops k lo p :
  ordered ops k lo = true -> p < lo -> shift ops k p = 0.
Proof.
  revert k lo; induction ops as [|[i c|i pat r] ops IH]; intros k lo; cbn [ordered shift].
  - done.
  - intros [Hi Hops]%andb_prop Hp. apply Z.leb_le in Hi.
    rewrite (IH _ _ Hops) by lia.
    destruct (Z.leb_spec (i - k) p); lia.
  - intros [_ Hops]%andb_prop Hp. by eapply IH.
Qed.

(** For an ordered list the insertions that land at or before a line are
    those whose original position is at most that of the line. *)
Lemma inserted_before_shift ops k lo n q :
  0 <= k -> 0 <= lo -> ordered ops k lo = true -> 0 <= q < n ->
  (q < lo + k -> inserted_before ops n q = 0) /\
  (lo + k <= q -> inserted_before ops n q = shift ops k (q - k)).
Proof.
  revert k lo n q.
  induction ops as [|[i c|i pat r] ops IH]; intros k lo n q Hk Hlo;
    cbn [ordered inserted_before shift].
  - done.
  - intros [Hi Hops]%andb_prop Hq. apply Z.leb_le in Hi.
    assert (insert_pos n i = Z.min i n) as ->.
    { destruct (Z.le_gt_cases i n).
      - rewrite insert_pos_in_range by lia. lia.
      - rewrite insert_pos_beyond by lia. lia. }
    destruct (Z.leb_spec (Z.min i n) q) as [Hle|Hgt].
    + destruct (IH (k + 1) (i - k) (n + 1) (q + 1) ltac:(lia) ltac:(lia) Hops ltac:(lia))
        as [_ IH2].
      split; [lia|]. intros _.
      destruct (Z.leb_spec (i - k) (q - k)); [|lia].
      rewrite IH2 by lia. f_equal. f_equal. lia.
    + destruct (IH (k + 1) (i - k) (n + 1) q ltac:(lia) ltac:(lia) Hops ltac:(lia))
        as [IH1 _].
      rewrite IH1 by lia. split; [done|]. intros _.
      destruct (Z.leb_spec (i - k) (q - k)); [lia|].
      rewrite (shift_before _ _ _ _ Hops) by lia. done.
  - intros [_ Hops]%andb_prop Hq. by apply IH.
Qed.

(** The frame property of an ordered run, in the coordinates of the
    document it starts from: a line before the working area stays where it
    is; a line in or after the working area that no substitution addresses
    moves down by the insertions made at or before it. *)
Lemma apply_ops_frame ops k lo lines lines' (q : nat) s :
  0 <= k -> 0 <= lo ->
  ordered ops k lo = true ->
  apply_ops ops lines = Ok lines' ->
  lines !! q = Some s ->
  (Z.of_nat q < lo + k -> lines' !! q = Some s) /\
  (lo + k <= Z.of_nat q ->
   Z.of_nat q - k ∉ targets ops k ->
   lines' !! Z.to_nat (Z.of_nat q + shift ops k (Z.of_nat q - k)) = Some s).
Proof.
  revert k lo lines q.
  induction ops as [|[i c|i pat r] ops IH]; intros k lo lines q Hk Hlo;
    cbn [ordered apply_ops shift targets].
  - intros _ [= <-] Hq. split; [done|]. intros _ _.
    by replace (Z.to_nat (Z.of_nat q + 0)) with q by lia.
  - intros [Hi Hops]%andb_prop Hrun Hq. apply Z.leb_le in Hi.
    cbn [apply_op mbind result_bind] in Hrun.
    pose proof (lookup_lt_Some _ _ _ Hq) as Hlt.
    pose proof (len_nonneg lines) as Hlen.
    assert (insert_pos (len lines) i = Z.min i (len lines)) as Hw.
    { destruct (Z.le_gt_cases i (len lines)).
      - rewrite insert_pos_in_range by lia. lia.
      - rewrite insert_pos_beyond by lia. lia. }
    destruct (Z.le_gt_cases i (Z.of_nat q)) as [Hle|Hgt].
    + (* the insertion lands at or before the line *)
      assert (list_insert lines i c !! S q = Some s) as Hq'.
      { rewrite lookup_list_insert_ge; [done|]. unfold len in *. lia. }
      destruct (IH (k + 1) (i - k) _ (S q) ltac:(lia) ltac:(lia) Hops Hrun Hq')
        as [_ IH2].
      split; [lia|]. intros _ Hnot.
      destruct (Z.leb_spec (i - k) (Z.of_nat q - k)); [|lia].
      replace (Z.of_nat (S q) - (k + 1)) with (Z.of_nat q - k) in IH2 by lia.
      replace (Z.of_nat q + (1 + shift ops (k + 1) (Z.of_nat q - k)))
        with (Z.of_nat (S q) + shift ops (k + 1) (Z.of_nat q - k)) by lia.
      apply IH2; [lia | done].
    + (* the insertion lands after the line *)
      assert (list_insert lines i c !! q = Some s) as Hq'.
      { rewrite lookup_list_insert_lt; [done|]. unfold len in *. lia. }
      destruct (IH (k + 1) (i - k) _ q ltac:(lia) ltac:(lia) Hops Hrun Hq')
        as [IH1 _].
      split; [intros _; apply IH1; lia|]. intros _ _.
      destruct (Z.leb_spec (i - k) (Z.of_nat q - k)); [lia|].
      rewrite (shift_before _ _ _ _ Hops) by lia.
      replace (Z.to_nat (Z.of_nat q + (0 + 0))) with q by lia.
      apply IH1. lia.
  - intros [Hi Hops]%andb_prop Hrun Hq. apply Z.leb_le in Hi.
    destruct (apply_op (Replace i pat r) lines) as [l1|] eqn:H1; [|done].
    cbn [mbind result_bind] in Hrun.
    apply apply_op_replace_Ok in H1 as (j & line & Hj & _ & ->).
    apply subscript_Ok in Hj as [[_ ->]|[? _]]; [|lia].
    split.
    + intros Hbefore.
      assert (<[Z.to_nat i := re_sub pat r line]> lines !! q = Some s) as Hq'
        by (rewrite list_lookup_insert_ne; [done | lia]).
      destruct (IH k lo _ q Hk Hlo Hops Hrun Hq') as [IH1 _]. by apply IH1.
    + intros Hafter [Hne Hnot]%not_elem_of_cons.
      assert (<[Z.to_nat i := re_sub pat r line]> lines !! q = Some s) as Hq'
        by (rewrite list_lookup_insert_ne; [done | lia]).
      destruct (IH k lo _ q Hk Hlo Hops Hrun Hq') as [_ IH2]. by apply IH2.
Qed.

(** ** The script as a run of [changes] *)

(** Running an operation list, one statement at a time. *)
Section run_steps.
Context {B : Type} (k : list string -> result B).

Lemma run_nil lines : apply_ops [] lines ≫= k = k lines.
Proof. reflexivity. Qed.

Lemma run_insert i c ops lines :
  apply_ops (Insert i c :: ops) lines ≫= k
  = apply_ops ops (list_insert lines i c) ≫= k.
Proof. reflexivity. Qed.

Lemma run_replace i p r ops lines :
  apply_ops (Replace i p r :: ops) lines ≫= k
  = getitem lines i ≫= fun line =>
    setitem lines i (re_sub p r line) ≫= fun lines' =>
    apply_ops ops lines' ≫= k.
Proof.
  cbn [apply_ops apply_op].
  destruct (getitem lines i) as [line|]; [|reflexivity].
  cbn [mbind result_bind].
  destruct (setitem lines i _); reflexivity.
Qed.
End run_steps.

Lemma apply_bind ops content :
  apply ops content = apply_ops ops (split content) ≫= fun lines => Ok (join lines).
Proof. unfold apply. by destruct (apply_ops ops (split content)). Qed.

Lemma bind_ext {A B} (m : result A) (k1 k2 : A -> result B) :
  (forall a, k1 a = k2 a) -> m ≫= k1 = m ≫= k2.
Proof. intros H. destruct m; [apply H | reflexivity]. Qed.

Ltac run_statement :=
  first
    [ rewrite run_insert
    | rewrite run_replace; apply bind_ext; intros ?; apply bind_ext; intros ? ].

(** The straight-line program is the run of [changes]. *)
Lemma apply_changes_eq content : apply_changes content = apply changes content.
Proof.
  symmetry. rewrite apply_bind.
  unfold apply_changes, changes. cbv zeta.
  do 45 run_statement.
  rewrite run_nil. reflexivity.
Qed.

(** ** The operation list of the script *)

Lemma changes_min_len : min_len changes = 5063.
Proof. reflexivity. Qed.

Lemma changes_count_inserts : count_inserts changes = 42.
Proof. reflexivity. Qed.

Lemma changes_nonneg : nonneg_indices changes = true.
Proof. reflexivity. Qed.

Lemma changes_single_lines : single_lines changes = true.
Proof. reflexivity. Qed.

Lemma changes_ordered : ordered changes 0 0 = true.
Proof. reflexivity. Qed.

Lemma changes_targets : targets changes 0 = [4847; 5057; 5062].
Proof. reflexivity. Qed.

Lemma len_pos_not_nil {A} (l : list A) : 0 < len l -> l <> [].
Proof. destruct l; [unfold len; simpl; lia | done]. Qed.

(** What a normal return of [apply_changes] consists of. *)
Lemma apply_changes_Ok content out :
  apply_changes content = Ok out <->
  exists lines', apply_ops changes (split content) = Ok lines' /\
                 out = join lines' /\ split out = lines'.
Proof.
  rewrite apply_changes_eq. unfold apply.
  destruct (apply_ops changes (split content)) as [lines'|e] eqn:Hrun; cbn.
  - assert (split (join lines') = lines') as Hsplit.
    { apply split_join.
      - apply len_pos_not_nil. apply apply_ops_len in Hrun.
        pose proof (len_nonneg (split content)).
        rewrite changes_count_inserts in Hrun. lia.
      - eapply apply_ops_no_nl; [apply changes_single_lines | apply split_no_nl | done]. }
    split.
    + intros [= <-]. eauto.
    + by intros (? & [= <-] & -> & _).
  - split; [done|]. by intros (? & ? & _).
Qed.

(** The script returns normally exactly on inputs of at least 5063 lines. *)
Lemma apply_changes_Ok_iff content :
  (exists out, apply_changes content = Ok out) <-> 5063 <= line_count content.
Proof.
  unfold line_count. rewrite <- changes_min_len.
  rewrite <- (apply_ops_Ok_iff _ _ changes_nonneg). split.
  - intros (out & (lines' & Hrun & _)%apply_changes_Ok). eauto.
  - intros (lines' & Hrun). exists (join lines').
    rewrite apply_changes_eq. unfold apply. by rewrite Hrun.
Qed.

Lemma line_count_apply_changes content out :
  apply_changes content = Ok out -> line_count out = line_count content + 42.
Proof.
  intros (lines' & Hrun & _ & Hsplit)%apply_changes_Ok.
  unfold line_count. rewrite Hsplit. apply apply_ops_len in Hrun.
  by rewrite changes_count_inserts in Hrun.
Qed.

Lemma newlines_line_count n : line_count (newlines n) = Z.of_nat n + 1.
Proof.
  unfold line_count, len. induction n as [|n IH]; [done|].
  cbn [newlines split]. unfold is_nl. rewrite bool_decide_eq_true_2 by done.
  cbn [length]. lia.
Qed.

(** ** Worked examples *)

Example split_empty : split "" = [""].
Proof. reflexivity. Qed.

Example split_trailing_newline : split (String "a" (String nl "")) = ["a"; ""].
Proof. reflexivity. Qed.

Example insert_then_replace :
  apply_ops [Insert 1 "x"; Replace 3 "c" "C"] ["a"; "b"; "c"] = Ok ["a"; "x"; "b"; "C"].
Proof. vm_compute. reflexivity. Qed.

Example replace_found_then_absent :
  apply_ops [Replace 0 "foo.txt" "bar.txt"; Replace 0 "zzz" "qqq"] ["foo.txt"]
  = Ok ["bar.txt"].
Proof. vm_compute. reflexivity. Qed.

Example re_sub_all_matches :
  re_sub "foo.txt" "bar.txt" "x fooXtxt foo.txt" = "x bar.txt bar.txt".
Proof. vm_compute. reflexivity. Qed.

Example negative_subscript : getitem ["a"; "b"; "c"] (-1) = Ok "c".
Proof. reflexivity. Qed.

Example subscript_too_large : getitem ["a"; "b"; "c"] 3 = Raise IndexError.
Proof. reflexivity. Qed.

Example shift_values :
  shift changes 0 4823 = 0 /\ shift changes 0 4824 = 1 /\
  shift changes 0 5062 = 12 /\ shift changes 0 5734 = 41 /\
  shift changes 0 5735 = 42.
Proof. split_and!; reflexivity. Qed.

Example two_matches_replaced :
  occ_count (compile "perl-00-original.txt")
    "dump perl-00-original.txt, perl-00-original.txt" = 2%nat /\
  re_sub "perl-00-original.txt" "perl-00-initial-points.txt"
    "dump perl-00-original.txt, perl-00-original.txt"
  = "dump perl-00-initial-points.txt, perl-00-initial-points.txt".
Proof. split; vm_compute; reflexivity. Qed.

(** Matches that overlap are not both replaced; the patterns of the script
    cannot overlap. *)
Example overlapping_matches :
  overlap_free (compile "aa") = false /\
  occ_count (compile "aa") "aaa" = 2%nat /\ re_sub "aa" "b" "aaa" = "ba".
Proof. split_and!; vm_compute; reflexivity. Qed.

Example plain_pattern_examples :
  plain_pattern "perl-00-original.txt" = true /\ plain_pattern "a+" = false /\
  plain_pattern "(" = false /\ plain_replacement "perl-00-initial-points.txt" = true.
Proof. split_and!; reflexivity. Qed.

(** On the 5063 empty lines of [doc0] the script returns 5105 lines.  The
    last insertion asks for index 5776 in a document of 5104 lines; its
    line is the last one of the result. *)
Example apply_changes_doc0 :
  line_count doc0 = 5063 /\
  apply_changes doc0 = Ok out0 /\
  line_count out0 = 5105 /\
  split out0 !! Z.to_nat 5104
  = Some ("    dumpPoints($points, " +:+ dq +:+ "perl-30-start-point-copied.txt" +:+
          dq +:+ ");").
Proof. split_and!; vm_compute; reflexivity. Qed.

(** On a text of 5063 lines whose line 4847 holds [perl-00-originalXtxt],
    the first substitution of the script finds that line at index 4848 and
    rewrites it. *)
Example apply_changes_near_miss :
  apply_changes doc1 = Ok (returned (apply_changes doc1)) /\
  split (returned (apply_changes doc1)) !! Z.to_nat 4848
  = Some "perl-00-initial-points.txt".
Proof. split; vm_compute; reflexivity. Qed.

(** On 5063 lines the last thirty insertions land after every input line. *)
Example inserted_before_values :
  inserted_before changes 5063 4823 = 0 /\
  inserted_before changes 5063 4824 = 1 /\
  inserted_before changes 5063 5061 = 12 /\
  inserted_before changes 6000 5999 = 42.
Proof. split_and!; vm_compute; reflexivity. Qed.

(** One line less and the substitution at index 5074 raises. *)
Example apply_changes_5062_lines :
  apply_changes (newlines (Z.to_nat 5061)) = Raise IndexError.
Proof. vm_compute. reflexivity. Qed.

(** * The claims *)

(** ** C1: indices outside the document *)

(** C1, as the code has it.  Let a run of [pre] leave a document [lines],
    and let [i] be at or beyond its length.  A substitution at [i] raises
    [IndexError], and the whole pass returns nothing, whatever operations
    follow.  An insertion at [i] does not raise: the line is put at the end
    of the document and the pass goes on with the operations that follow. *)
Theorem index_beyond_length pre post content lines i p r c :
  apply_ops pre (split content) = Ok lines ->
  len lines <= i ->
  apply (pre ++ Replace i p r :: post) content = Raise IndexError /\
  apply (pre ++ Insert i c :: post) content
  = join <$> apply_ops post (lines ++ [c])%list.
Proof.
  intros Hpre Hi. unfold apply. rewrite !apply_ops_app, Hpre.
  cbn [mbind result_bind apply_ops]. split.
  - rewrite apply_op_replace_Raise by lia. done.
  - cbn [apply_op mbind result_bind].
    destruct (Z.eq_dec i (len lines)) as [->|Hne].
    + unfold list_insert. rewrite insert_pos_in_range by (pose proof (len_nonneg lines); lia).
      unfold len. rewrite Nat2Z.id, take_ge, drop_ge by lia. done.
    + rewrite list_insert_beyond by lia. done.
Qed.

Lemma index_beyond_length_witness :
  apply_ops [Insert 1 "x"] (split (join ["a"; "b"; "c"])) = Ok ["a"; "x"; "b"; "c"] /\
  len ["a"; "x"; "b"; "c"] <= 7 /\
  apply ([Insert 1 "x"] ++ Replace 7 "c" "C" :: [Insert 0 "y"]) (join ["a"; "b"; "c"])
  = Raise IndexError /\
  apply ([Insert 1 "x"] ++ Insert 7 "z" :: [Insert 0 "y"]) (join ["a"; "b"; "c"])
  = join <$> apply_ops [Insert 0 "y"] (["a"; "x"; "b"; "c"] ++ ["z"])%list.
Proof.
  split; [reflexivity|]. split; [vm_compute; discriminate|].
  apply (index_beyond_length [Insert 1 "x"] [Insert 0 "y"] (join ["a"; "b"; "c"])
           ["a"; "x"; "b"; "c"] 7 "c" "C" "z").
  - reflexivity.
  - vm_compute; discriminate.
Defined.

(** C1 as stated fails on an insertion: index 5 is out of range for a
    document of one line, and [list.insert] appends instead of raising. *)
Lemma insert_beyond_end_is_clamped :
  out_of_range (Insert 5 "x") ["a"] /\
  apply_op (Insert 5 "x") ["a"] = Ok ["a"; "x"].
Proof. split; [vm_compute; reflexivity | reflexivity]. Qed.

(** ** C2: the line count of the result *)

(** C2.  On an input of at least 5063 lines [apply_changes] returns, and
    its result has 42 lines more than the input, 42 being the number of
    insertions in the list. *)
Theorem apply_changes_line_count content :
  5063 <= line_count content ->
  exists out, apply_changes content = Ok out /\
              line_count out = line_count content + 42 /\
              count_inserts changes = 42.
Proof.
  intros (out & Hout)%apply_changes_Ok_iff. exists out.
  split_and!; [done | by apply line_count_apply_changes | reflexivity].
Qed.

Lemma apply_changes_line_count_witness :
  5063 <= line_count doc0 /\
  exists out, apply_changes doc0 = Ok out /\
              line_count out = line_count doc0 + 42 /\
              count_inserts changes = 42.
Proof.
  split.
  - apply Z.leb_le. vm_compute. reflexivity.
  - apply (apply_changes_line_count doc0). apply Z.leb_le. vm_compute. reflexivity.
Defined.

(** ** C3: a substitution whose pattern is absent *)

(** The patterns and replacements of the script lie in the modelled
    fragment of [re]. *)
Lemma changes_plain :
  Forall (fun o => match o with
                   | Insert _ _ => True
                   | Replace _ p r =>
                       plain_pattern p = true /\ plain_replacement r = true
                   end) changes.
Proof. unfold changes. repeat constructor. Qed.

(** With the pattern of a substitution of the script, a substitution
    statement whose addressed line holds no match of the pattern returns
    normally and leaves the document as it was. *)
Lemma replace_without_match i0 p r lines i j line :
  Replace i0 p r ∈ changes ->
  subscript lines i = Ok j ->
  lines !! j = Some line ->
  occurs (compile p) line = false ->
  apply_op (Replace i p r) lines = Ok lines.
Proof.
  intros _ Hj Hline Hocc. apply apply_op_replace_Ok. exists j, line.
  split_and!; [done..|]. rewrite re_sub_no_match by done.
  symmetry. by apply list_insert_id.
Qed.

(** C3.  The script at an input on which it does not keep the claim.
    [doc1] has 5063 lines, and its line 4847 is [perl-00-originalXtxt],
    which does not contain the file name [perl-00-original.txt].  The
    first substitution of the script is written with the ['.'] of the file
    name unescaped, so its pattern matches the line with [X] in the place
    of the dot: [re.sub] rewrites the line, and the script returns a text
    whose line 4848 is the replacement and no longer the input line. *)
Theorem near_miss_line_is_rewritten :
  line_count doc1 = 5063 /\
  split doc1 !! Z.to_nat 4847 = Some "perl-00-originalXtxt" /\
  contains "perl-00-original.txt" "perl-00-originalXtxt" = false /\
  re_sub "perl-00-original.txt" "perl-00-initial-points.txt" "perl-00-originalXtxt"
  = "perl-00-initial-points.txt" /\
  apply_changes doc1 = Ok (returned (apply_changes doc1)) /\
  split (returned (apply_changes doc1)) !! Z.to_nat 4848
  = Some "perl-00-initial-points.txt".
Proof. split_and!; vm_compute; reflexivity. Qed.

(** ** C4: one insertion *)

(** C4.  An insertion at [i], [0 <= i <= N], into a document of [N] lines
    returns a document of [N + 1] lines that has [c] at position [i], the
    lines before [i] where they were and every line from [i] on one place
    further down. *)
Theorem insert_in_range lines i c :
  0 <= i <= len lines ->
  exists lines', apply_op (Insert i c) lines = Ok lines' /\
    len lines' = len lines + 1 /\
    lines' !! Z.to_nat i = Some c /\
    (forall p : nat, Z.of_nat p < i -> lines' !! p = lines !! p) /\
    (forall p : nat, i <= Z.of_nat p -> lines' !! S p = lines !! p).
Proof.
  intros Hi. exists (list_insert lines i c).
  pose proof (insert_pos_in_range (len lines) i Hi) as Hw.
  split_and!.
  - reflexivity.
  - apply len_list_insert.
  - replace (Z.to_nat i) with (Z.to_nat (insert_pos (len lines) i)) by (by rewrite Hw).
    apply lookup_list_insert_eq.
  - intros p Hp. apply lookup_list_insert_lt. rewrite Hw. lia.
  - intros p Hp. apply lookup_list_insert_ge. rewrite Hw. lia.
Qed.

Lemma insert_in_range_witness :
  0 <= 1 <= len ["a"; "b"; "c"] /\
  exists lines', apply_op (Insert 1 "x") ["a"; "b"; "c"] = Ok lines' /\
    len lines' = len ["a"; "b"; "c"] + 1 /\
    lines' !! Z.to_nat 1 = Some "x" /\
    (forall p : nat, Z.of_nat p < 1 -> lines' !! p = ["a"; "b"; "c"] !! p) /\
    (forall p : nat, 1 <= Z.of_nat p -> lines' !! S p = ["a"; "b"; "c"] !! p).
Proof.
  split.
  - vm_compute. split; discriminate.
  - apply (insert_in_range ["a"; "b"; "c"] 1 "x"). vm_compute. split; discriminate.
Defined.

(** ** C5: the lines no substitution addresses *)

(** The insertions of the script that land at or before an input line are
    those whose index, less the number of insertions made before, is at
    most the position of the line; the length of the input plays no role. *)
Lemma inserted_before_changes n p :
  0 <= p < n -> inserted_before changes n p = shift changes 0 p.
Proof.
  intros Hp.
  destruct (inserted_before_shift changes 0 0 n p ltac:(lia) ltac:(lia)
              changes_ordered Hp) as [_ H].
  rewrite H by lia. f_equal. lia.
Qed.

(** C5.  On an input of at least 5063 lines [apply_changes] returns, and
    every input line other than those at positions 4847, 5057 and 5062 is
    found unchanged in the result, moved down by the number of insertions
    made at or before it. *)
Theorem apply_changes_frame content :
  5063 <= line_count content ->
  exists out, apply_changes content = Ok out /\
    forall (p : nat) (s : string),
      split content !! p = Some s ->
      Z.of_nat p <> 4847 -> Z.of_nat p <> 5057 -> Z.of_nat p <> 5062 ->
      split out
        !! Z.to_nat (Z.of_nat p
                     + inserted_before changes (line_count content) (Z.of_nat p))
      = Some s.
Proof.
  intros (out & Hout)%apply_changes_Ok_iff. exists out. split; [done|].
  apply apply_changes_Ok in Hout as (lines' & Hrun & _ & ->).
  intros p s Hp H1 H2 H3.
  rewrite inserted_before_changes
    by (apply lookup_lt_Some in Hp; unfold line_count, len; lia).
  destruct (apply_ops_frame changes 0 0 _ _ p s ltac:(lia) ltac:(lia)
              changes_ordered Hrun Hp) as [_ Hframe].
  rewrite Z.sub_0_r in Hframe. apply Hframe; [lia|].
  rewrite changes_targets, !not_elem_of_cons.
  split_and!; [lia..|apply not_elem_of_nil].
Qed.

Lemma apply_changes_frame_witness :
  5063 <= line_count doc0 /\
  exists out, apply_changes doc0 = Ok out /\
    forall (p : nat) (s : string),
      split doc0 !! p = Some s ->
      Z.of_nat p <> 4847 -> Z.of_nat p <> 5057 -> Z.of_nat p <> 5062 ->
      split out
        !! Z.to_nat (Z.of_nat p
                     + inserted_before changes (line_count doc0) (Z.of_nat p))
      = Some s.
Proof.
  split.
  - apply Z.leb_le. vm_compute. reflexivity.
  - apply (apply_changes_frame doc0). apply Z.leb_le. vm_compute. reflexivity.
Defined.

(** ** C6: split, join and the empty list of operations *)

(** C6.  Joining the lines of a text gives the text back, and the empty
    operation list applied to a text returns that text. *)
Theorem apply_nil content :
  join (split content) = content /\ apply [] content = Ok content.
Proof.
  split; [apply join_split|]. unfold apply. cbn. by rewrite join_split.
Qed.

(** ** C7: running the script on its own result *)

(** C7.  Where [apply_changes] returns, it also returns on its result, and
    the second result differs from the first. *)
Theorem apply_changes_not_idempotent content out :
  apply_changes content = Ok out ->
  exists out2, apply_changes out = Ok out2 /\ out2 <> out.
Proof.
  intros Hout.
  assert (5063 <= line_count content) as Hn by (apply apply_changes_Ok_iff; eauto).
  apply line_count_apply_changes in Hout as Hlc.
  destruct (proj2 (apply_changes_Ok_iff out) ltac:(lia)) as [out2 Hout2].
  exists out2. split; [done|]. intros ->.
  apply line_count_apply_changes in Hout2. lia.
Qed.

Lemma apply_changes_not_idempotent_witness :
  apply_changes doc0 = Ok out0 /\
  exists out2, apply_changes out0 = Ok out2 /\ out2 <> out0.
Proof.
  assert (apply_changes doc0 = Ok out0) as H by (vm_compute; reflexivity).
  split; [exact H|]. exact (apply_changes_not_idempotent doc0 out0 H).
Defined.

(** ** C8: the input file *)

Lemma main_other_paths fs path :
  path <> output_path -> (main fs).1 !! path = fs !! path.
Proof.
  intros Hne. unfold main. destruct (fs !! input_path) as [content|]; [|done].
  destruct (apply_changes content); [|done].
  cbn. by rewrite lookup_insert_ne.
Qed.

(** C8.  The script writes to a path other than the one it reads.  Whatever
    the run does, the file at the input path holds afterwards what it held
    before: either nothing was written at all, or the only file written is
    the one at the output path, which receives the string that
    [apply_changes] returned for the content read. *)
Theorem main_keeps_input (fs : gmap string string) :
  input_path <> output_path /\
  (main fs).1 !! input_path = fs !! input_path /\
  ((main fs).1 = fs \/
   exists content out,
     fs !! input_path = Some content /\ apply_changes content = Ok out /\
     main fs = (<[output_path := out]> fs, Ok ())).
Proof.
  split_and!.
  - done.
  - by apply main_other_paths.
  - unfold main. destruct (fs !! input_path) as [content|] eqn:Hin; [|by left].
    destruct (apply_changes content) as [out|] eqn:Hout; [|by left].
    right. by exists content, out.
Qed.

(** ** C9: when the script raises *)

Lemma apply_changes_exn content e : apply_changes content = Raise e -> e = IndexError.
Proof.
  rewrite apply_changes_eq. unfold apply. generalize (split content) as lines.
  induction changes as [|o ops IH]; intros lines; cbn [apply_ops]; [done|].
  destruct (apply_op o lines) as [l1|e1] eqn:Ho; cbn [mbind result_bind].
  - apply IH.
  - intros [= <-]. by eapply apply_op_exn.
Qed.

(** The substitutions are statements 1, 12 and 14 of the script, counting
    from 0; all other statements are insertions. *)
Lemma changes_replaces :
  List.filter (fun no => negb (is_insert no.2)) (imap pair changes)
  = [ (1%nat, Replace 4848 "perl-00-original.txt" "perl-00-initial-points.txt");
      (12%nat, Replace 5068 "perl-10-after-splines.txt" "perl-10-splines-added.txt");
      (14%nat, Replace 5074 "perl-11-after-arcfit.txt" "perl-11-arcfit-added.txt") ].
Proof. reflexivity. Qed.

(** C9.  [apply_changes] raises [IndexError] exactly on inputs of fewer than
    5063 lines, and it raises nothing else.  The script gets past its first
    substitution exactly when the input has at least 4848 lines, past the
    second exactly from 5058 lines and past the third exactly from 5063
    lines.  An insertion never raises, and with an index beyond the end it
    appends. *)
Theorem apply_changes_raises content :
  (apply_changes content = Raise IndexError <-> line_count content < 5063) /\
  (forall e, apply_changes content = Raise e -> e = IndexError) /\
  ((exists lines', apply_ops (take 2 changes) (split content) = Ok lines')
   <-> 4848 <= line_count content) /\
  ((exists lines', apply_ops (take 13 changes) (split content) = Ok lines')
   <-> 5058 <= line_count content) /\
  ((exists lines', apply_ops (take 15 changes) (split content) = Ok lines')
   <-> 5063 <= line_count content) /\
  (forall i c lines, exists lines', apply_op (Insert i c) lines = Ok lines') /\
  (forall i c lines,
     len lines < i -> apply_op (Insert i c) lines = Ok (lines ++ [c])%list).
Proof.
  split_and!.
  - pose proof (apply_changes_Ok_iff content) as Hok.
    destruct (apply_changes content) as [out|e] eqn:Hrun.
    + split; [done|]. intros Hlt. assert (5063 <= line_count content); [|lia].
      apply Hok. eauto.
    + apply apply_changes_exn in Hrun as ->. split; [|done]. intros _.
      destruct (Z.lt_ge_cases (line_count content) 5063) as [|Hge]; [done|].
      apply Hok in Hge as [? ?]. done.
  - apply apply_changes_exn.
  - by rewrite apply_ops_Ok_iff.
  - by rewrite apply_ops_Ok_iff.
  - by rewrite apply_ops_Ok_iff.
  - intros i c lines. by eexists.
  - intros i c lines Hi. cbn [apply_op]. by rewrite list_insert_beyond.
Qed.

(** ** C10: every match in the line is replaced *)

Lemma changes_overlap_free :
  Forall (fun o => match o with
                   | Insert _ _ => True
                   | Replace _ p _ => overlap_free (compile p) = true
                   end) changes.
Proof. unfold changes. repeat constructor. Qed.

(** C10.  Take the pattern and replacement of a substitution of the script
    and a line with [k] matches of the pattern.  The line is [k] matches
    with stretches around them that hold no match, and the substitution
    statement puts the replacement in the place of each of the [k] matches
    and keeps the stretches. *)
Theorem replace_all_matches i0 p repl i lines j line :
  Replace i0 p repl ∈ changes ->
  subscript lines i = Ok j ->
  lines !! j = Some line ->
  exists pieces last,
    line = weave pieces last /\
    length pieces = occ_count (compile p) line /\
    Forall (fun gm => occurs (compile p) gm.1 = false /\
                      match_at (compile p) gm.2 = Some "") pieces /\
    occurs (compile p) last = false /\
    apply_op (Replace i p repl) lines
    = Ok (<[j := weave (refill repl pieces) last]> lines).
Proof.
  intros Hin Hj Hline.
  pose proof (proj1 (Forall_forall _ _) changes_overlap_free _ Hin) as Hfree.
  cbn in Hfree.
  destruct (compile p) as [|a r] eqn:Hp; [done|].
  destruct (sub_scan_weave a r repl line)
    as (pieces & last & Hs & Hpieces & Hlast & Hsub & Hcount).
  exists pieces, last. split_and!; [done | by apply Hcount | done | done |].
  apply apply_op_replace_Ok. exists j, line. split_and!; [done..|].
  unfold re_sub. by rewrite Hp, Hsub.
Qed.

Lemma replace_all_matches_witness :
  Replace 4848 "perl-00-original.txt" "perl-00-initial-points.txt" ∈ changes /\
  subscript ["dump perl-00-original.txt, perl-00-original.txt"] 0 = Ok 0%nat /\
  ["dump perl-00-original.txt, perl-00-original.txt"] !! 0%nat
  = Some "dump perl-00-original.txt, perl-00-original.txt" /\
  exists pieces last,
    "dump perl-00-original.txt, perl-00-original.txt" = weave pieces last /\
    length pieces
    = occ_count (compile "perl-00-original.txt")
        "dump perl-00-original.txt, perl-00-original.txt" /\
    Forall (fun gm => occurs (compile "perl-00-original.txt") gm.1 = false /\
                      match_at (compile "perl-00-original.txt") gm.2 = Some "") pieces /\
    occurs (compile "perl-00-original.txt") last = false /\
    apply_op (Replace 0 "perl-00-original.txt" "perl-00-initial-points.txt")
      ["dump perl-00-original.txt, perl-00-original.txt"]
    = Ok (<[0%nat := weave (refill "perl-00-initial-points.txt" pieces) last]>
            ["dump perl-00-original.txt, perl-00-original.txt"]).
Proof.
  assert (Replace 4848 "perl-00-original.txt" "perl-00-initial-points.txt" ∈ changes)
    as Hin by (apply list_elem_of_lookup; exists 1%nat; reflexivity).
  split; [exact Hin|]. split; [reflexivity|]. split; [reflexivity|].
  exact (replace_all_matches 4848 "perl-00-original.txt" "perl-00-initial-points.txt"
           0 ["dump perl-00-original.txt, perl-00-original.txt"] 0%nat
           "dump perl-00-original.txt, perl-00-original.txt" Hin eq_refl eq_refl).
Defined.

(** * Further properties *)

(** ** Lines and newlines *)

(** X1.  A non-empty list of lines none of which holds a newline is what
    [split] returns for their [join], and the joined text has as many lines
    as the list. *)
Theorem split_join_round_trip lines :
  lines <> [] -> Forall no_nl lines ->
  split (join lines) = lines /\ line_count (join lines) = len lines.
Proof.
  intros Hne Hall. unfold line_count. by rewrite split_join.
Qed.

Lemma split_join_round_trip_witness :
  ["a"; ""; "b"] <> [] /\ Forall no_nl ["a"; ""; "b"] /\
  split (join ["a"; ""; "b"]) = ["a"; ""; "b"] /\
  line_count (join ["a"; ""; "b"]) = len ["a"; ""; "b"].
Proof.
  assert (["a"; ""; "b"] <> []) as Hne by discriminate.
  assert (Forall no_nl ["a"; ""; "b"]) as Hall by (repeat constructor).
  split; [exact Hne|]. split; [exact Hall|].
  exact (split_join_round_trip ["a"; ""; "b"] Hne Hall).
Defined.

(** X2.  A text has one line more than it has newline characters; in
    particular the empty text has one line and a text that ends in a
    newline has an empty last line. *)
Theorem line_count_count_nl s : line_count s = count_nl s + 1.
Proof.
  unfold line_count, len. induction s as [|c s IH]; [done|].
  cbn [split count_nl]. destruct (is_nl c).
  - cbn [length]. lia.
  - pose proof (split_not_nil s). destruct (split s) as [|l ls]; [done|].
    cbn [length] in *. lia.
Qed.

(** ** The main program *)

(** X3.  The script opens its output file only after [apply_changes] has
    returned.  So when the text read from the input file has fewer than
    5063 lines, the run ends with [IndexError] and has written nothing: no
    output file is created and an existing one is not touched. *)
Theorem main_short_input (fs : gmap string string) content :
  fs !! input_path = Some content ->
  line_count content < 5063 ->
  main fs = (fs, Raise IndexError).
Proof.
  intros Hin Hlt. unfold main. rewrite Hin.
  pose proof (apply_changes_Ok_iff content) as Hok.
  destruct (apply_changes content) as [out|e] eqn:Hrun.
  - assert (5063 <= line_count content); [apply Hok; eauto | lia].
  - by apply apply_changes_exn in Hrun as ->.
Qed.

Lemma main_short_input_witness :
  ({[ input_path := "" ]} : gmap string string) !! input_path = Some "" /\
  line_count "" < 5063 /\
  main {[ input_path := "" ]} = ({[ input_path := "" ]}, Raise IndexError).
Proof.
  assert (({[ input_path := "" ]} : gmap string string) !! input_path = Some "")
    as H1 by (vm_compute; reflexivity).
  assert (line_count "" < 5063) as H2 by (vm_compute; reflexivity).
  split; [exact H1|]. split; [exact H2|].
  exact (main_short_input {[ input_path := "" ]} "" H1 H2).
Defined.

(** X4.  Running the script a second time changes nothing: the input file
    is as it was, so the second run ends as the first did and writes the
    same text to the output path. *)
Theorem main_twice (fs : gmap string string) : main (main fs).1 = main fs.
Proof.
  pose proof (main_other_paths fs input_path ltac:(done)) as Hin.
  unfold main at 1 3. rewrite Hin. unfold main.
  destruct (fs !! input_path) as [content|]; [|done].
  destruct (apply_changes content) as [out|e]; [|done].
  cbn. by rewrite insert_insert_eq.
Qed.

(** ** Where the lines of the result come from *)

Lemma count_inserts_nonneg ops : 0 <= count_inserts ops.
Proof.
  induction ops as [|o ops IH]; cbn [count_inserts]; [lia|].
  destruct (is_insert o); lia.
Qed.

Lemma ordered_app pre rest k lo :
  ordered (pre ++ rest) k lo = true ->
  exists lo', lo <= lo' /\ ordered rest (k + count_inserts pre) lo' = true.
Proof.
  revert k lo; induction pre as [|[i c|i pat r] pre IH]; intros k lo;
    cbn [app ordered count_inserts is_insert].
  - intros H. exists lo. split; [lia|]. by rewrite Z.add_0_r.
  - intros [Hi Hrest]%andb_prop. apply Z.leb_le in Hi.
    destruct (IH _ _ Hrest) as (lo' & Hlo' & H). exists lo'. split; [lia|].
    by replace (k + (1 + count_inserts pre)) with (k + 1 + count_inserts pre) by lia.
  - intros [Hi Hrest]%andb_prop.
    destruct (IH _ _ Hrest) as (lo' & Hlo' & H). exists lo'. split; [lia|].
    by rewrite Z.add_0_l.
Qed.

(** X5.  Every line the script inserts is in the result at the index its
    [insert] statement names, or, where that index lies beyond the end of
    the document at that moment, at the position that then was the end.
    Later statements do not move or alter it. *)
Theorem inserted_line_position content out pre i c post :
  changes = (pre ++ Insert i c :: post)%list ->
  apply_changes content = Ok out ->
  split out !! Z.to_nat (Z.min i (line_count content + count_inserts pre)) = Some c.
Proof.
  intros Hchanges (lines' & Hrun & _ & ->)%apply_changes_Ok.
  pose proof changes_ordered as Hord. rewrite Hchanges in Hrun, Hord.
  rewrite apply_ops_app in Hrun.
  destruct (apply_ops pre (split content)) as [mid|] eqn:Hpre; [|done].
  cbn [mbind result_bind apply_ops apply_op] in Hrun.
  apply apply_ops_len in Hpre. fold (line_count content) in Hpre.
  destruct (ordered_app _ _ _ _ Hord) as (lo & Hlo & Hrest).
  cbn [ordered] in Hrest. apply andb_prop in Hrest as [Hi Hpost].
  apply Z.leb_le in Hi. rewrite Z.add_0_l in Hi, Hpost.
  pose proof (count_inserts_nonneg pre) as Hk.
  pose proof (len_nonneg mid) as Hmid.
  assert (insert_pos (len mid) i = Z.min i (len mid)) as Hw.
  { destruct (Z.le_gt_cases i (len mid)).
    - rewrite insert_pos_in_range by lia. lia.
    - rewrite insert_pos_beyond by lia. lia. }
  pose proof (lookup_list_insert_eq mid i c) as Hc. rewrite Hw, Hpre in Hc.
  destruct (apply_ops_frame post (count_inserts pre + 1) (i - count_inserts pre)
              _ _ _ c ltac:(lia) ltac:(lia) Hpost Hrun Hc) as [Hstay _].
  apply Hstay. lia.
Qed.

Lemma inserted_line_position_witness :
  changes = ([] ++ Insert 4824 "# Stage 0: Initial Points from GPX" :: drop 1 changes)%list /\
  apply_changes doc0 = Ok out0 /\
  split out0 !! Z.to_nat (Z.min 4824 (line_count doc0 + count_inserts []))
  = Some "# Stage 0: Initial Points from GPX".
Proof.
  assert (changes = ([] ++ Insert 4824 "# Stage 0: Initial Points from GPX"
                        :: drop 1 changes)%list) as H1 by reflexivity.
  assert (apply_changes doc0 = Ok out0) as H2 by (vm_compute; reflexivity).
  split; [exact H1|]. split; [exact H2|].
  exact (inserted_line_position doc0 out0 [] 4824
           "# Stage 0: Initial Points from GPX" (drop 1 changes) H1 H2).
Defined.

Lemma rewritten_before ops k lo p s :
  ordered ops k lo = true -> p < lo -> rewritten ops k p s = s.
Proof.
  revert k lo s; induction ops as [|[i c|i pat r] ops IH]; intros k lo s;
    cbn [ordered rewritten].
  - done.
  - intros [Hi Hops]%andb_prop Hp. apply Z.leb_le in Hi. eapply IH; [done|lia].
  - intros [Hi Hops]%andb_prop Hp. apply Z.leb_le in Hi.
    destruct (Z.eqb_spec (i - k) p); [lia|]. by eapply IH.
Qed.

(** The frame lemma with the substitutions in: a line in or after the
    working area of an ordered run ends up moved down by the insertions
    made at or before it and rewritten by the substitutions that address
    it. *)
Lemma apply_ops_rewritten ops k lo lines lines' (q : nat) s :
  0 <= k -> 0 <= lo ->
  ordered ops k lo = true ->
  apply_ops ops lines = Ok lines' ->
  lines !! q = Some s ->
  lo + k <= Z.of_nat q ->
  lines' !! Z.to_nat (Z.of_nat q + shift ops k (Z.of_nat q - k))
  = Some (rewritten ops k (Z.of_nat q - k) s).
Proof.
  revert k lo lines q s.
  induction ops as [|[i c|i pat r] ops IH]; intros k lo lines q s Hk Hlo;
    cbn [ordered apply_ops shift rewritten].
  - intros _ [= <-] Hq _. by replace (Z.to_nat (Z.of_nat q + 0)) with q by lia.
  - intros [Hi Hops]%andb_prop Hrun Hq Hafter. apply Z.leb_le in Hi.
    cbn [apply_op mbind result_bind] in Hrun.
    pose proof (lookup_lt_Some _ _ _ Hq) as Hlt.
    pose proof (len_nonneg lines) as Hlen.
    assert (insert_pos (len lines) i = Z.min i (len lines)) as Hw.
    { destruct (Z.le_gt_cases i (len lines)).
      - rewrite insert_pos_in_range by lia. lia.
      - rewrite insert_pos_beyond by lia. lia. }
    destruct (Z.le_gt_cases i (Z.of_nat q)) as [Hle|Hgt].
    + assert (list_insert lines i c !! S q = Some s) as Hq'.
      { rewrite lookup_list_insert_ge; [done|]. unfold len in *. lia. }
      pose proof (IH (k + 1) (i - k) _ (S q) s ltac:(lia) ltac:(lia) Hops Hrun Hq'
                    ltac:(lia)) as IH2.
      destruct (Z.leb_spec (i - k) (Z.of_nat q - k)); [|lia].
      replace (Z.of_nat (S q) - (k + 1)) with (Z.of_nat q - k) in IH2 by lia.
      replace (Z.of_nat q + (1 + shift ops (k + 1) (Z.of_nat q - k)))
        with (Z.of_nat (S q) + shift ops (k + 1) (Z.of_nat q - k)) by lia.
      done.
    + assert (list_insert lines i c !! q = Some s) as Hq'.
      { rewrite lookup_list_insert_lt; [done|]. unfold len in *. lia. }
      destruct (apply_ops_frame ops (k + 1) (i - k) _ _ q s ltac:(lia) ltac:(lia)
                  Hops Hrun Hq') as [Hstay _].
      destruct (Z.leb_spec (i - k) (Z.of_nat q - k)); [lia|].
      rewrite (shift_before _ _ _ _ Hops) by lia.
      rewrite (rewritten_before _ _ _ _ _ Hops) by lia.
      replace (Z.to_nat (Z.of_nat q + (0 + 0))) with q by lia.
      apply Hstay. lia.
  - intros [Hi Hops]%andb_prop Hrun Hq Hafter. apply Z.leb_le in Hi.
    destruct (apply_op (Replace i pat r) lines) as [l1|] eqn:H1; [|done].
    cbn [mbind result_bind] in Hrun.
    apply apply_op_replace_Ok in H1 as (j & line & Hj & Hline & ->).
    apply subscript_Ok in Hj as [[Hrange ->]|[? _]]; [|lia].
    destruct (Z.eqb_spec (i - k) (Z.of_nat q - k)) as [Heq|Hne].
    + assert (Z.to_nat i = q) as Hiq by lia. rewrite Hiq in *.
      assert (line = s) as -> by congruence.
      eapply (IH k lo); [done..| |done].
      apply list_lookup_insert_eq. by eapply lookup_lt_Some.
    + eapply (IH k lo); [done..| |done].
      rewrite list_lookup_insert_ne; [done | lia].
Qed.

Lemma rewritten_changes p s : rewritten changes 0 p s = substituted p s.
Proof.
  unfold substituted.
  destruct (Z.eqb_spec p 4847) as [->|H1]; [reflexivity|].
  destruct (Z.eqb_spec p 5057) as [->|H2]; [reflexivity|].
  destruct (Z.eqb_spec p 5062) as [->|H3]; [reflexivity|].
  unfold changes. cbn [rewritten].
  repeat match goal with
         | |- context [Z.eqb ?a p] => rewrite (proj2 (Z.eqb_neq a p)) by lia
         end.
  reflexivity.
Qed.

(** X6.  No input line is lost.  Where the script returns, each input line
    is in the result, moved down by the number of insertions made at or
    before it; the lines at positions 4847, 5057 and 5062 have gone through
    their substitution and all others are as they were. *)
Theorem input_line_position content out (p : nat) s :
  apply_changes content = Ok out ->
  split content !! p = Some s ->
  split out
    !! Z.to_nat (Z.of_nat p + inserted_before changes (line_count content) (Z.of_nat p))
  = Some (substituted (Z.of_nat p) s).
Proof.
  intros (lines' & Hrun & _ & ->)%apply_changes_Ok Hp.
  rewrite inserted_before_changes
    by (apply lookup_lt_Some in Hp; unfold line_count, len; lia).
  pose proof (apply_ops_rewritten changes 0 0 _ _ p s ltac:(lia) ltac:(lia)
                changes_ordered Hrun Hp ltac:(lia)) as H.
  rewrite Z.sub_0_r, rewritten_changes in H. exact H.
Qed.

Lemma input_line_position_witness :
  apply_changes doc1 = Ok (returned (apply_changes doc1)) /\
  split doc1 !! Z.to_nat 4847 = Some "perl-00-originalXtxt" /\
  split (returned (apply_changes doc1))
    !! Z.to_nat (Z.of_nat (Z.to_nat 4847)
                 + inserted_before changes (line_count doc1) (Z.of_nat (Z.to_nat 4847)))
  = Some (substituted (Z.of_nat (Z.to_nat 4847)) "perl-00-originalXtxt").
Proof.
  assert (apply_changes doc1 = Ok (returned (apply_changes doc1))) as H1
    by (vm_compute; reflexivity).
  assert (split doc1 !! Z.to_nat 4847 = Some "perl-00-originalXtxt") as H2
    by (vm_compute; reflexivity).
  split; [exact H1|]. split; [exact H2|].
  exact (input_line_position doc1 _ (Z.to_nat 4847) "perl-00-originalXtxt" H1 H2).
Defined.

Lemma inserted_before_bounds ops n q :
  0 <= inserted_before ops n q <= count_inserts ops.
Proof.
  revert n q; induction ops as [|[i c|i pat r] ops IH]; intros n q;
    cbn [inserted_before count_inserts is_insert].
  - lia.
  - destruct (insert_pos n i <=? q).
    + specialize (IH (n + 1) (q + 1)). lia.
    + specialize (IH (n + 1) q). lia.
  - specialize (IH n q). lia.
Qed.

Lemma inserted_before_increasing ops n q q' :
  q < q' ->
  q + inserted_before ops n q < q' + inserted_before ops n q'.
Proof.
  revert n q q'; induction ops as [|[i c|i pat r] ops IH]; intros n q q' Hq;
    cbn [inserted_before].
  - lia.
  - destruct (Z.leb_spec (insert_pos n i) q), (Z.leb_spec (insert_pos n i) q').
    + specialize (IH (n + 1) (q + 1) (q' + 1)). lia.
    + lia.
    + specialize (IH (n + 1) q (q' + 1)). lia.
    + by apply IH.
  - by apply IH.
Qed.

(** X7.  The script keeps the input lines in their order: of two input
    lines, the earlier one is found earlier in the result, and both are
    found within it. *)
Theorem input_lines_keep_order content out (p p' : nat) s s' :
  apply_changes content = Ok out ->
  split content !! p = Some s ->
  split content !! p' = Some s' ->
  (p < p')%nat ->
  exists r r' : nat,
    (r < r' < length (split out))%nat /\
    split out !! r = Some (substituted (Z.of_nat p) s) /\
    split out !! r' = Some (substituted (Z.of_nat p') s').
Proof.
  intros Hout Hp Hp' Hlt.
  apply apply_changes_Ok in Hout as (lines' & Hrun & _ & ->).
  set (n := line_count content).
  pose proof (inserted_before_increasing changes n (Z.of_nat p) (Z.of_nat p')
                ltac:(lia)) as Hinc.
  pose proof (inserted_before_bounds changes n (Z.of_nat p)) as [Hlo _].
  exists (Z.to_nat (Z.of_nat p + inserted_before changes n (Z.of_nat p))),
         (Z.to_nat (Z.of_nat p' + inserted_before changes n (Z.of_nat p'))).
  assert (forall (q : nat) t, split content !! q = Some t ->
            lines' !! Z.to_nat (Z.of_nat q + inserted_before changes n (Z.of_nat q))
            = Some (substituted (Z.of_nat q) t)) as Hpos.
  { intros q t Hq. unfold n. rewrite inserted_before_changes
      by (apply lookup_lt_Some in Hq; unfold line_count, len; lia).
    pose proof (apply_ops_rewritten changes 0 0 _ _ q t ltac:(lia) ltac:(lia)
                  changes_ordered Hrun Hq ltac:(lia)) as H.
    rewrite Z.sub_0_r, rewritten_changes in H. exact H. }
  pose proof (Hpos p s Hp) as H1. pose proof (Hpos p' s' Hp') as H2.
  split_and!; [lia | by eapply lookup_lt_Some | done | done].
Qed.

Lemma input_lines_keep_order_witness :
  apply_changes doc1 = Ok (returned (apply_changes doc1)) /\
  split doc1 !! Z.to_nat 4847 = Some "perl-00-originalXtxt" /\
  split doc1 !! Z.to_nat 5062 = Some "" /\
  (Z.to_nat 4847 < Z.to_nat 5062)%nat /\
  exists r r' : nat,
    (r < r' < length (split (returned (apply_changes doc1))))%nat /\
    split (returned (apply_changes doc1)) !! r
    = Some (substituted (Z.of_nat (Z.to_nat 4847)) "perl-00-originalXtxt") /\
    split (returned (apply_changes doc1)) !! r'
    = Some (substituted (Z.of_nat (Z.to_nat 5062)) "").
Proof.
  assert (apply_changes doc1 = Ok (returned (apply_changes doc1))) as H1
    by (vm_compute; reflexivity).
  assert (split doc1 !! Z.to_nat 4847 = Some "perl-00-originalXtxt") as H2
    by (vm_compute; reflexivity).
  assert (split doc1 !! Z.to_nat 5062 = Some "") as H3 by (vm_compute; reflexivity).
  assert (Z.to_nat 4847 < Z.to_nat 5062)%nat as H4 by lia.
  split; [exact H1|]. split; [exact H2|]. split; [exact H3|]. split; [exact H4|].
  exact (input_lines_keep_order doc1 _ (Z.to_nat 4847) (Z.to_nat 5062)
           "perl-00-originalXtxt" "" H1 H2 H3 H4).
Defined.

(** ** A line with one match *)

Lemma sub_scan_Some a r repl s rest :
  match_at (a :: r) s = Some rest ->
  sub_scan a r repl s = repl +:+ sub_scan a r repl rest.
Proof.
  funelim (sub_scan a r repl s); intros Hmatch.
  - done.
  - congruence.
  - congruence.
Qed.

Lemma sub_scan_None a r repl c s :
  match_at (a :: r) (String c s) = None ->
  sub_scan a r repl (String c s) = String c (sub_scan a r repl s).
Proof.
  intros Hnone. remember (String c s) as t eqn:Ht. revert c s Ht Hnone.
  funelim (sub_scan a r repl t); intros c0 s0 Ht Hnone.
  - done.
  - congruence.
  - by injection Ht as -> ->.
Qed.

Lemma occ_count_cons r c s :
  occ_count r (String c s)
  = (match match_at r (String c s) with Some _ => 1 | None => 0 end
     + occ_count r s)%nat.
Proof. reflexivity. Qed.

Lemma occ_count_app_ge r g rest :
  (occ_count r rest <= occ_count r (g +:+ rest))%nat.
Proof.
  induction g as [|c g IH]; [done|].
  change (String c g +:+ rest) with (String c (g +:+ rest)).
  rewrite occ_count_cons. lia.
Qed.

Lemma occ_count_0_occurs r s : occ_count r s = 0%nat -> occurs r s = false.
Proof.
  induction s as [|c s IH]; cbn [occ_count occurs];
    destruct (match_at r _); try done; lia.
Qed.

(** Text before the first match is copied. *)
Lemma sub_scan_prefix a r repl g rest :
  occ_count (a :: r) (g +:+ rest) = occ_count (a :: r) rest ->
  sub_scan a r repl (g +:+ rest) = g +:+ sub_scan a r repl rest.
Proof.
  induction g as [|c g IH]; [done|].
  change (String c g +:+ rest) with (String c (g +:+ rest)). intros Hocc.
  pose proof (occ_count_app_ge (a :: r) g rest) as Hge.
  rewrite occ_count_cons in Hocc.
  destruct (match_at (a :: r) (String c (g +:+ rest))) eqn:Hm; [lia|].
  rewrite (sub_scan_None _ _ _ _ _ Hm).
  change (String c g +:+ sub_scan a r repl rest)
    with (String c (g +:+ sub_scan a r repl rest)).
  f_equal. apply IH. lia.
Qed.

(** X9.  For the pattern of a substitution of the script and a line that
    holds exactly one match of it: [re.sub] returns the line with that
    match replaced and the text before and after it untouched. *)
Theorem re_sub_single_match i0 p repl g m t :
  Replace i0 p repl ∈ changes ->
  match_at (compile p) m = Some "" ->
  occ_count (compile p) (g +:+ m +:+ t) = 1%nat ->
  re_sub p repl (g +:+ m +:+ t) = g +:+ repl +:+ t.
Proof.
  intros Hin Hm Hone.
  pose proof (proj1 (Forall_forall _ _) changes_overlap_free _ Hin) as Hfree.
  cbn in Hfree. unfold re_sub.
  destruct (compile p) as [|a r] eqn:Hp; [done|].
  apply (match_at_extend _ _ _ t) in Hm. change ("" +:+ t) with t in Hm.
  pose proof (occ_count_match _ _ _ Hfree Hm) as Hrest.
  pose proof (occ_count_app_ge (a :: r) g (m +:+ t)) as Hge.
  rewrite sub_scan_prefix by lia.
  rewrite (sub_scan_Some _ _ _ _ _ Hm).
  rewrite (sub_scan_no_match a r repl t); [done|].
  apply occ_count_0_occurs. lia.
Qed.

Lemma re_sub_single_match_witness :
  Replace 4848 "perl-00-original.txt" "perl-00-initial-points.txt" ∈ changes /\
  match_at (compile "perl-00-original.txt") "perl-00-original.txt" = Some "" /\
  occ_count (compile "perl-00-original.txt")
    ("    dumpPoints($points, " +:+ "perl-00-original.txt" +:+ ");") = 1%nat /\
  re_sub "perl-00-original.txt" "perl-00-initial-points.txt"
    ("    dumpPoints($points, " +:+ "perl-00-original.txt" +:+ ");")
  = "    dumpPoints($points, " +:+ "perl-00-initial-points.txt" +:+ ");".
Proof.
  assert (Replace 4848 "perl-00-original.txt" "perl-00-initial-points.txt" ∈ changes)
    as Hin by (apply list_elem_of_lookup; exists 1%nat; reflexivity).
  split; [exact Hin|]. split; [reflexivity|]. split; [reflexivity|].
  exact (re_sub_single_match 4848 "perl-00-original.txt" "perl-00-initial-points.txt"
           "    dumpPoints($points, " "perl-00-original.txt" ");" Hin eq_refl eq_refl).
Defined.

(** ** When a substitution changes the line *)

Lemma match_at_None_extend r s y :
  match_at r s = None -> (length r <= String.length s)%nat ->
  match_at r (s +:+ y) = None.
Proof.
  revert s; induction r as [|a r IH]; intros s; cbn [match_at length]; [done|].
  destruct s as [|c s]; cbn [String.length]; [lia|].
  change (String c s +:+ y) with (String c (s +:+ y)). cbn [match_at].
  destruct (atom_matches a c); [|done]. intros Hnone Hlen. apply IH; [done | lia].
Qed.

Lemma sub_scan_changed a r repl s :
  (forall y, match_at (a :: r) (repl +:+ y) = None) ->
  occurs (a :: r) s = true ->
  sub_scan a r repl s <> s.
Proof.
  intros Hrepl. funelim (sub_scan a r repl s); intros Hocc.
  - done.
  - intros Heq. pose proof Hm as Hm'. rewrite <- Heq, Hrepl in Hm'. done.
  - intros [= Heq]. revert Heq. apply H; [done|].
    cbn [occurs] in Hocc. by rewrite e in Hocc.
Qed.

(** The replacement texts of the script are not matched by their own
    patterns. *)
Lemma changes_replacements :
  Forall (fun o => match o with
                   | Insert _ _ => True
                   | Replace _ p repl =>
                       match_at (compile p) repl = None /\
                       (length (compile p) <= String.length repl)%nat
                   end) changes.
Proof. unfold changes. repeat constructor. Qed.

(** X10.  A substitution of the script returns the line unchanged exactly
    when its pattern has no match in the line. *)
Theorem re_sub_unchanged_iff i0 p repl s :
  Replace i0 p repl ∈ changes ->
  re_sub p repl s = s <-> occurs (compile p) s = false.
Proof.
  intros Hin. split; [|apply re_sub_no_match].
  pose proof (proj1 (Forall_forall _ _) changes_replacements _ Hin) as [Hnone Hlen].
  destruct (occurs (compile p) s) eqn:Hocc; [|done]. intros Heq. exfalso.
  unfold re_sub in Heq. destruct (compile p) as [|a r] eqn:Hp; [done|].
  revert Heq. apply sub_scan_changed; [|done].
  intros y. by apply match_at_None_extend.
Qed.

Lemma re_sub_unchanged_iff_witness :
  Replace 5068 "perl-10-after-splines.txt" "perl-10-splines-added.txt" ∈ changes /\
  (re_sub "perl-10-after-splines.txt" "perl-10-splines-added.txt" "# Stage 10"
   = "# Stage 10"
   <-> occurs (compile "perl-10-after-splines.txt") "# Stage 10" = false).
Proof.
  assert (Replace 5068 "perl-10-after-splines.txt" "perl-10-splines-added.txt" ∈ changes)
    as Hin by (apply list_elem_of_lookup; exists 12%nat; reflexivity).
  split; [exact Hin|].
  exact (re_sub_unchanged_iff 5068 "perl-10-after-splines.txt"
           "perl-10-splines-added.txt" "# Stage 10" Hin).
Defined.
